(** * User Management REST API (server.js): a shallow embedding

    The service keeps one JSON array of user records in [users.json] and
    serves four routes over it.  Every handler reads the whole file,
    works on the array in memory and writes the whole array back.

    Conventions of the embedding:
    - JSON values are the inductive [json]; a JavaScript object is a finite
      map from property names to values (key order, which only shows in
      the bytes of the file, is not modelled); numbers are the JSON
      integers;
    - [undefined] is [None] in an [option json];
    - an [await]ed computation is a function of the request's environment
      and of the disk, returning a value or a thrown exception together
      with the disk it leaves ([io]). *)

From stdpp Require Import gmap strings list fin_maps pretty.

#[local] Set Warnings "-register-all".
Local Open Scope Z_scope.

(** ** JSON values *)

Inductive json : Type :=
  | JNull
  | JBool (b : bool)
  | JNum (n : Z)
  | JStr (s : string)
  | JArr (l : list json)
  | JObj (o : gmap string json).

(** A JavaScript value that may be [undefined]. *)
Abbreviation value := (option json).

(** [!v] is [negb (truthy v)]: [undefined], [null], [false], [0] and the
    empty string are falsy, everything else (every object and array too)
    is truthy. *)
Definition truthy_json (v : json) : bool :=
  match v with
  | JNull => false
  | JBool b => b
  | JNum n => negb (n =? 0)
  | JStr s => negb (String.eqb s "")
  | JArr _ | JObj _ => true
  end.

Definition truthy (v : value) : bool :=
  match v with
  | None => false
  | Some j => truthy_json j
  end.

(** [a || b] *)
Definition js_or (a : value) (b : json) : json :=
  match a with
  | Some j => if truthy_json j then j else b
  | None => b
  end.

(** [a === b].  Primitives compare by value.  Objects and arrays compare
    by reference, and the two sides of every comparison in the handlers
    come from two different parses (the file on one side, the request on
    the other), so they are never the same object. *)
Definition strict_eq (a b : value) : bool :=
  match a, b with
  | None, None => true
  | Some JNull, Some JNull => true
  | Some (JBool x), Some (JBool y) => Bool.eqb x y
  | Some (JNum x), Some (JNum y) => x =? y
  | Some (JStr x), Some (JStr y) => String.eqb x y
  | _, _ => false
  end.

(** Reading a property named [k], for the names the handlers read
    ([name], [email], [age], [country], [_id]): none of them is an array
    index, [length] or a property of a prototype, so only an object can
    have one.  Reading any property of [null] throws, which is the
    [None] result here. *)
Definition get (v : json) (k : string) : option value :=
  match v with
  | JNull => None
  | JObj o => Some (o !! k)
  | _ => Some None
  end.

(** The own enumerable properties that an object spread [{...v}] copies:
    the members of an object, the elements of an array under their
    indices, the characters of a string under theirs, and nothing for
    the other primitives. *)
Fixpoint chars (s : string) : list json :=
  match s with
  | EmptyString => []
  | String c s' => JStr (String c EmptyString) :: chars s'
  end.

Definition indexed (l : list json) : gmap string json :=
  list_to_map (imap (λ i v, (pretty i, v)) l).

Definition own_props (v : json) : gmap string json :=
  match v with
  | JObj o => o
  | JArr l => indexed l
  | JStr s => indexed (chars s)
  | _ => ∅
  end.

(** [{...a, ...b, updatedAt: t}]: later properties win; spreading
    [undefined] copies nothing. *)
Definition spread_update (a : value) (b : json) (t : json) : gmap string json :=
  <["updatedAt" := t]> (own_props b ∪ from_option own_props ∅ a).

(** A property of an object literal; [JSON.stringify] drops a property
    whose value is [undefined]. *)
Definition with_prop (k : string) (v : value) (o : gmap string json)
  : gmap string json :=
  match v with
  | Some j => <[k := j]> o
  | None => o
  end.

(** ** The runtime: exceptions, the file, the clock *)

Inductive exn : Type :=
  | TypeError
  | SyntaxError
  | SystemError (code : string).

Inductive outcome (A : Type) : Type :=
  | Returns (a : A)
  | Throws (x : exn).
Arguments Returns {A} a.
Arguments Throws {A} x.

(** The text of a file, seen through [JSON.parse] and [JSON.stringify]:
    either the serialization of a JSON value, which parses back to it, or
    text that [JSON.parse] rejects. *)
Inductive text : Type :=
  | Garbage
  | Encodes (v : json).

Definition JSON_parse (t : text) : outcome json :=
  match t with
  | Encodes v => Returns v
  | Garbage => Throws SyntaxError
  end.

Definition JSON_stringify (v : json) : text := Encodes v.

(** [users.json]: not there, there but [fs.readFile] rejects with [x],
    or readable with some text. *)
Inductive disk : Type :=
  | NoFile
  | NoAccess (x : exn)
  | File (t : text).

(** What the runtime decides during one request: the successive readings
    of the system clock (milliseconds since the epoch), the string
    [Math.random().toString(36)], and whether [fs.writeFile] rejects, with
    which error and leaving which file behind. *)
Record env : Type := Env {
  clock : nat → Z;
  random36 : string;
  write_fault : option (exn * disk)
}.

Record state : Type := State {
  fs : disk;
  ticks : nat
}.

Definition io (A : Type) : Type := env → state → outcome A * state.

Definition ret {A} (a : A) : io A := λ _ s, (Returns a, s).

Definition bind {A B} (m : io A) (k : A → io B) : io B :=
  λ e s,
    match m e s with
    | (Returns a, s') => k a e s'
    | (Throws x, s') => (Throws x, s')
    end.

Notation "x <- m ;; k" := (bind m (λ x, k))
  (at level 100, m at next level, right associativity,
   format "'[v' x  <-  m  ;; '/' k ']'").

Definition lift {A} (o : outcome A) : io A := λ _ s, (o, s).

(** [try { m } catch (error) { h error }] *)
Definition try_catch {A} (m : io A) (h : exn → io A) : io A :=
  λ e s,
    match m e s with
    | (Returns a, s') => (Returns a, s')
    | (Throws x, s') => h x e s'
    end.

Definition Date_now : io Z :=
  λ e s, (Returns (clock e (ticks s)), State (fs s) (S (ticks s))).

Definition Math_random_toString36 : io string :=
  λ e s, (Returns (random36 e), s).

Definition fs_readFile : io text :=
  λ _ s,
    match fs s with
    | NoFile => (Throws (SystemError "ENOENT"), s)
    | NoAccess x => (Throws x, s)
    | File t => (Returns t, s)
    end.

Definition fs_writeFile (t : text) : io unit :=
  λ e s,
    match write_fault e with
    | Some (x, d) => (Throws x, State d (ticks s))
    | None => (Returns tt, State (File t) (ticks s))
    end.

(** ** Dates *)

Fixpoint zeros (k : nat) : string :=
  match k with
  | O => ""
  | S k' => "0" +:+ zeros k'
  end.

(** The decimal digits of a natural number [n], padded with zeros on the
    left to at least [w] characters. *)
Definition pad (w : nat) (n : Z) : string :=
  let s := pretty n in
  zeros (w - String.length s) +:+ s.

(** The civil date (year, month, day) of a day number, counted from
    1970-01-01, in the proleptic Gregorian calendar. *)
Definition civil_from_days (day : Z) : Z * Z * Z :=
  let z := day + 719468 in
  let era := z / 146097 in
  let doe := z mod 146097 in
  let yoe := (doe - doe / 1460 + doe / 36524 - doe / 146096) / 365 in
  let doy := doe - (365 * yoe + yoe / 4 - yoe / 100) in
  let mp := (5 * doy + 2) / 153 in
  let d := doy - (153 * mp + 2) / 5 + 1 in
  let m := if mp <? 10 then mp + 3 else mp - 9 in
  let y := yoe + era * 400 in
  (if m <=? 2 then y + 1 else y, m, d).

Definition year_string (y : Z) : string :=
  if (0 <=? y) && (y <=? 9999) then pad 4 y
  else (if y <? 0 then "-" else "+") +:+ pad 6 (Z.abs y).

(** [new Date(t).toISOString()], for a time value [t] in milliseconds
    since the epoch. *)
Definition toISOString (t : Z) : string :=
  let ms := t mod 86400000 in
  let '(y, m, d) := civil_from_days (t / 86400000) in
  year_string y +:+ "-" +:+ pad 2 m +:+ "-" +:+ pad 2 d +:+ "T"
    +:+ pad 2 (ms / 3600000) +:+ ":" +:+ pad 2 (ms / 60000 mod 60)
    +:+ ":" +:+ pad 2 (ms / 1000 mod 60) +:+ "." +:+ pad 3 (ms mod 1000)
    +:+ "Z".

(** [new Date().toISOString()] *)
Definition new_Date_toISOString : io string :=
  t <- Date_now ;;
  ret (toISOString t).

(** ** The store (server.js, lines 18-35) *)

Definition readUsers : io json :=
  try_catch
    (data <- fs_readFile ;;
     lift (JSON_parse data))
    (λ _, ret (JArr [])).

Definition writeUsers (users : json) : io unit :=
  fs_writeFile (JSON_stringify users).

(** [s.substr(2, 5)] is [String.substring 2 5 s]. *)
Definition generateId : io string :=
  t <- Date_now ;;
  r <- Math_random_toString36 ;;
  ret (pretty t +:+ String.substring 2 5 r).

(** ** Arrays *)

(** [users.find(p)] and [users.findIndex(p)]: the callback runs on the
    elements in order until it answers [true]; an exception it throws
    ends the search.  A value that is not an array has no such method,
    and calling it throws. *)
Fixpoint find_in (p : json → outcome bool) (l : list json) : outcome value :=
  match l with
  | [] => Returns None
  | u :: l' =>
      match p u with
      | Throws x => Throws x
      | Returns true => Returns (Some u)
      | Returns false => find_in p l'
      end
  end.

Fixpoint findIndex_from (p : json → outcome bool) (l : list json) (i : Z)
  : outcome Z :=
  match l with
  | [] => Returns (-1)
  | u :: l' =>
      match p u with
      | Throws x => Throws x
      | Returns true => Returns i
      | Returns false => findIndex_from p l' (i + 1)
      end
  end.

Definition Array_find (p : json → outcome bool) (users : json) : outcome value :=
  match users with
  | JArr l => find_in p l
  | _ => Throws TypeError
  end.

Definition Array_findIndex (p : json → outcome bool) (users : json) : outcome Z :=
  match users with
  | JArr l => findIndex_from p l 0
  | _ => Throws TypeError
  end.

(** [users.length] *)
Definition Array_length (users : json) : outcome value :=
  match users with
  | JNull => Throws TypeError
  | JArr l => Returns (Some (JNum (Z.of_nat (length l))))
  | JStr s => Returns (Some (JNum (Z.of_nat (String.length s))))
  | JObj o => Returns (o !! "length")
  | _ => Returns None
  end.

(** [users[i]]: [undefined] outside the array.  [users[i] = v],
    [users.push(v)] and [users.splice(i, 1)], for an index [0 <= i]; the
    handlers reach them with an array only, after a search that throws
    on anything else. *)
Definition elem (users : json) (i : Z) : value :=
  match users with
  | JArr l => if i <? 0 then None else l !! Z.to_nat i
  | _ => None
  end.

Definition set_elem (users : json) (i : Z) (v : json) : json :=
  match users with
  | JArr l =>
      if Z.to_nat i <? length l then JArr (<[Z.to_nat i := v]> l)
      else JArr (l ++ replicate (Z.to_nat i - length l) JNull ++ [v])
  | _ => users
  end%nat.

Definition push (users : json) (v : json) : json :=
  match users with
  | JArr l => JArr (l ++ [v])
  | _ => users
  end.

Definition splice1 (users : json) (i : Z) : json :=
  match users with
  | JArr l => JArr (delete (Z.to_nat i) l)
  | _ => users
  end.

(** [user.k === v], the callback of the searches. *)
Definition prop_is (k : string) (v : value) (user : json) : outcome bool :=
  match get user k with
  | Some x => Returns (strict_eq x v)
  | None => Throws TypeError
  end.

(** ** Responses *)

(** [res.status(status).json({success, message, count, data, error})];
    a key the handler does not send, or sends as [undefined], is [None].
    [error] stands for [error.message]. *)
Record response : Type := Response {
  status : Z;
  success : bool;
  message : option string;
  count : value;
  data : value;
  error : option exn
}.

Definition listing (n : value) (users : json) : response :=
  Response 200 true None n (Some users) None.

Definition done_with (code : Z) (msg : string) (v : value) : response :=
  Response code true (Some msg) None v None.

Definition refused (code : Z) (msg : string) : response :=
  Response code false (Some msg) None None None.

Definition failed (msg : string) (x : exn) : response :=
  Response 500 false (Some msg) None None (Some x).

(** ** The handlers (server.js, lines 38-191)

    [console.log] and [console.error] have no effect on the response or
    on the file and are left out.  An early [return res...json(...)] is
    the value of the handler's body.  The body of a request is the value
    that [express.json()] has parsed into [req.body], and the identifier
    of a route is the string [req.params.id]. *)

(** [try { body } catch (error) { res.status(500).json(...) }], run on a
    request: the response sent and the file left behind. *)
Definition serve (body : io response) (msg : string) (e : env) (d : disk)
  : response * disk :=
  match try_catch body (λ x, ret (failed msg x)) e (State d 0) with
  | (Returns r, s) => (r, fs s)
  | (Throws x, s) => (failed msg x, fs s)
  end.

(** GET /users *)
Definition list_users : io response :=
  users <- readUsers ;;
  n <- lift (Array_length users) ;;
  ret (listing n users).

(** POST /users *)
Definition destructure (body : json) (k : string) : io value :=
  lift (match get body k with
        | Some v => Returns v
        | None => Throws TypeError
        end).

Definition newUser (_id : string) (name email age country : value)
    (createdAt updatedAt : string) : json :=
  JObj (with_prop "_id" (Some (JStr _id))
       (with_prop "name" name
       (with_prop "email" email
       (with_prop "age" (Some (js_or age JNull))
       (with_prop "country" (Some (js_or country (JStr "Unknown")))
       (with_prop "createdAt" (Some (JStr createdAt))
       (with_prop "updatedAt" (Some (JStr updatedAt)) ∅))))))).

Definition create_user (body : json) : io response :=
  name <- destructure body "name" ;;
  email <- destructure body "email" ;;
  age <- destructure body "age" ;;
  country <- destructure body "country" ;;
  if negb (truthy name) || negb (truthy email) then
    ret (refused 400 "Name and email are required fields")
  else
    users <- readUsers ;;
    existingUser <- lift (Array_find (prop_is "email" email) users) ;;
    if truthy existingUser then
      ret (refused 400 "Email already exists")
    else
      _id <- generateId ;;
      createdAt <- new_Date_toISOString ;;
      updatedAt <- new_Date_toISOString ;;
      let user := newUser _id name email age country createdAt updatedAt in
      let users := push users user in
      _ <- writeUsers users ;;
      ret (done_with 201 "User created successfully" (Some user)).

(** PUT /users/:id *)
Definition update_user (userId : string) (updateData : json) : io response :=
  users <- readUsers ;;
  userIndex <- lift (Array_findIndex (prop_is "_id" (Some (JStr userId))) users) ;;
  if userIndex =? -1 then
    ret (refused 404 "User not found")
  else
    updatedAt <- new_Date_toISOString ;;
    let users :=
      set_elem users userIndex
        (JObj (spread_update (elem users userIndex) updateData (JStr updatedAt))) in
    _ <- writeUsers users ;;
    ret (done_with 200 "User updated successfully" (elem users userIndex)).

(** DELETE /users/:id *)
Definition delete_user (userId : string) : io response :=
  users <- readUsers ;;
  userIndex <- lift (Array_findIndex (prop_is "_id" (Some (JStr userId))) users) ;;
  if userIndex =? -1 then
    ret (refused 404 "User not found")
  else
    let deletedUser := elem users userIndex in
    let users := splice1 users userIndex in
    _ <- writeUsers users ;;
    ret (done_with 200 "User deleted successfully" deletedUser).

(** The routes. *)
Inductive request : Type :=
  | GET_users
  | POST_users (body : json)
  | PUT_users (id : string) (body : json)
  | DELETE_users (id : string).

Definition handle (r : request) : env → disk → response * disk :=
  match r with
  | GET_users => serve list_users "Server error while fetching users"
  | POST_users body => serve (create_user body) "Error creating user"
  | PUT_users id body => serve (update_user id body) "Error updating user"
  | DELETE_users id => serve (delete_user id) "Error deleting user"
  end.

(** A session: requests served one after the other, each with its own
    environment; the responses in order and the file at the end. *)
Fixpoint session (rs : list (env * request)) (d : disk) : list response * disk :=
  match rs with
  | [] => ([], d)
  | (e, r) :: rs' =>
      let '(a, d') := handle r e d in
      let '(as', d'') := session rs' d' in
      (a :: as', d'')
  end.

(** The collection the handlers see on a disk: the result of [readUsers]. *)
Definition stored (d : disk) : json :=
  match d with
  | File (Encodes v) => v
  | _ => JArr []
  end.

(** ** Collections of records *)

Definition is_record (u : json) : bool :=
  match u with
  | JObj _ => true
  | _ => false
  end.

(** Every element is an object. *)
Definition records (l : list json) : Prop :=
  Forall (λ u, is_record u = true) l.

(** No record carries the identifier [uid]. *)
Definition without_id (uid : string) (l : list json) : Prop :=
  ∀ o, JObj o ∈ l → o !! "_id" ≠ Some (JStr uid).

(** The file reads as an array of records. *)
Definition well_formed (d : disk) : Prop :=
  ∃ l, stored d = JArr l ∧ records l.

(** The search predicate of update and delete: [user._id === userId]. *)
Abbreviation has_id uid := (prop_is "_id" (Some (JStr uid))).

(** A member of the request body, as destructuring reads it from a body
    that is not [null]. *)
Definition field (body : json) (k : string) : value :=
  match body with
  | JObj o => o !! k
  | _ => None
  end.

(** The record that create builds in environment [e]. *)
Definition created (e : env) (name email age country : value) : json :=
  newUser (pretty (clock e 0%nat) +:+ String.substring 2 5 (random36 e))
    name email age country
    (toISOString (clock e 1%nat)) (toISOString (clock e 2%nat)).

(** The body has a truthy [name] and a truthy [email]. *)
Definition valid (body : json) : Prop :=
  truthy (field body "name") = true ∧ truthy (field body "email") = true.

(** No record has the email [email]. *)
Definition email_unused (email : value) (l : list json) : Prop :=
  ∀ o, JObj o ∈ l → o !! "email" ≠ email.

(** The values that [===] compares by value. *)
Definition is_primitive (v : json) : bool :=
  match v with
  | JArr _ | JObj _ => false
  | _ => true
  end.

(** A run of create requests. *)
Definition creates (cs : list (env * json)) : list (env * request) :=
  map (λ c, (c.1, POST_users c.2)) cs.

(** The member [k] of a record sent as [data], and the identifiers of
    the records of a listing. *)
Definition member (v : value) (k : string) : value :=
  match v with
  | Some u => field u k
  | None => None
  end.

Definition listed_ids (r : response) : list value :=
  match data r with
  | Some (JArr l) => (λ u, field u "_id") <$> l
  | _ => []
  end.

(** Every record of [l] has for [updatedAt] a reading of the clock that
    is not later than [T]. *)
Definition stamped (T : Z) (l : list json) : Prop :=
  ∀ o, JObj o ∈ l →
    ∃ t, o !! "updatedAt" = Some (JStr (toISOString t)) ∧ t ≤ T.

(** A session that starts when the clock shows [T], in which the clock
    never goes back and every write succeeds. *)
Fixpoint steady (T : Z) (rs : list (env * request)) : Prop :=
  match rs with
  | [] => True
  | (e, _) :: rs' =>
      write_fault e = None
      ∧ T ≤ clock e 0%nat ∧ clock e 0%nat ≤ clock e 1%nat
      ∧ clock e 1%nat ≤ clock e 2%nat
      ∧ steady (clock e 2%nat) rs'
  end.

(** ** Sample data *)

Definition env_ann : env := Env (λ _, 1700000000000) "0.4fzyo82mvyr" None.

Definition env_bob : env :=
  Env (λ n, 1700000000001 + Z.of_nat n) "0.zzzzzzzz" None.

(** A minute later. *)
Definition env_later : env :=
  Env (λ n, 1700000060000 + Z.of_nat n) "0.8k2jal9x" None.

(** The system clock has been set back to 2020. *)
Definition env_back : env :=
  Env (λ n, 1600000000000 + Z.of_nat n) "0.8k2jal9x" None.

Definition ann : json :=
  JObj {[ "name" := JStr "Ann"; "email" := JStr "ann@example.com" ]}.

Definition bob : json :=
  JObj {[ "name" := JStr "Bob"; "email" := JStr "bob@example.com";
          "age" := JNum 0 ]}.

Definition cara : json :=
  JObj {[ "name" := JStr "Cara"; "email" := JStr "cara@example.com";
          "age" := JNum 31; "country" := JStr "Kenya" ]}.

Definition ann_record : gmap string json :=
  {[ "_id" := JStr "17000000000004fzyo"; "name" := JStr "Ann";
     "email" := JStr "ann@example.com"; "age" := JNull;
     "country" := JStr "Unknown";
     "createdAt" := JStr "2023-11-14T22:13:20.000Z";
     "updatedAt" := JStr "2023-11-14T22:13:20.000Z" ]}.

Definition bob_record : gmap string json :=
  {[ "_id" := JStr "1700000000001zzzzz"; "name" := JStr "Bob";
     "email" := JStr "bob@example.com"; "age" := JNull;
     "country" := JStr "Unknown";
     "createdAt" := JStr "2023-11-14T22:13:20.002Z";
     "updatedAt" := JStr "2023-11-14T22:13:20.003Z" ]}.

(** The file after Ann, then Bob, have been created. *)
Definition two_users : disk :=
  File (Encodes (JArr [JObj ann_record; JObj bob_record])).

(** Ann and Bob are created, Bob's record is given Ann's identifier, then
    that identifier is deleted and the collection listed. *)
Definition renumbering : list (env * request) :=
  [ (env_ann, POST_users ann);
    (env_bob, POST_users bob);
    (env_later, PUT_users "1700000000001zzzzz"
                  (JObj {[ "_id" := JStr "17000000000004fzyo" ]}));
    (env_later, DELETE_users "17000000000004fzyo");
    (env_later, GET_users) ].

(** Ann and Bob are created in the same millisecond, with the same
    random string. *)
Definition same_millisecond : list (env * request) :=
  [ (env_ann, POST_users ann); (env_ann, POST_users bob) ].

(** ** Further notions: environments, answers, invariants *)

(** The environment [e] with a write that succeeds. *)
Definition calm (e : env) : env := Env (clock e) (random36 e) None.

(** The identifier that [generateId] returns in environment [e]. *)
Definition generated (e : env) : string :=
  pretty (clock e 0%nat) +:+ String.substring 2 5 (random36 e).

(** The members that create writes into a record. *)
Definition user_members : gset string :=
  {[ "_id"; "name"; "email"; "age"; "country"; "createdAt"; "updatedAt" ]}.

(** The length of the stored collection, when it is an array. *)
Definition size_of (d : disk) : option nat :=
  match stored d with
  | JArr l => Some (length l)
  | _ => None
  end.

(** No two records at different positions have emails that [===] finds
    equal. *)
Definition emails_distinct (l : list json) : Prop :=
  ∀ i j oi oj, i ≠ j → l !! i = Some (JObj oi) → l !! j = Some (JObj oj) →
    strict_eq (oi !! "email") (oj !! "email") = false.

(** Requests of a session whose writes succeed and whose bodies are not
    [null]. *)
Definition sound (c : env * request) : Prop :=
  write_fault c.1 = None ∧ c.2 ≠ POST_users JNull.

(** The last reading of the clock in a session that starts at [T]. *)
Fixpoint closing (T : Z) (rs : list (env * request)) : Z :=
  match rs with
  | [] => T
  | (e, _) :: rs' => closing (clock e 2%nat) rs'
  end.

(** * Properties *)

(** ** The runtime functions on known values *)

Example toISOString_epoch : toISOString 0 = "1970-01-01T00:00:00.000Z".
Proof. vm_compute. reflexivity. Qed.

Example toISOString_before_epoch :
  toISOString (-1) = "1969-12-31T23:59:59.999Z".
Proof. vm_compute. reflexivity. Qed.

Example toISOString_leap_day :
  toISOString 951868799999 = "2000-02-29T23:59:59.999Z".
Proof. vm_compute. reflexivity. Qed.

Example toISOString_2023 :
  toISOString 1700000000000 = "2023-11-14T22:13:20.000Z".
Proof. vm_compute. reflexivity. Qed.

Example toISOString_year_10000 :
  toISOString 253402300800000 = "+010000-01-01T00:00:00.000Z".
Proof. vm_compute. reflexivity. Qed.

Example substr_short : String.substring 2 5 "0.i" = "i".
Proof. reflexivity. Qed.

Example spread_array :
  own_props (JArr [JStr "a"; JNull]) = {[ "0" := JStr "a"; "1" := JNull ]}.
Proof. vm_compute. reflexivity. Qed.

(** ** The monad and the store *)

Lemma readUsers_run e s : readUsers e s = (Returns (stored (fs s)), s).
Proof.
  unfold readUsers, try_catch, bind, fs_readFile, lift, ret, stored.
  destruct (fs s) as [|x|[|v]]; reflexivity.
Qed.

Lemma writeUsers_run e s users :
  writeUsers users e s =
  match write_fault e with
  | Some (x, d) => (Throws x, State d (ticks s))
  | None => (Returns tt, State (File (Encodes users)) (ticks s))
  end.
Proof. reflexivity. Qed.

(** ** Strict equality *)

Lemma strict_eq_str (x : value) (s : string) :
  strict_eq x (Some (JStr s)) = true ↔ x = Some (JStr s).
Proof.
  split.
  - destruct x as [[| | |s'| |]|]; simpl; try discriminate.
    intros H%String.eqb_eq. by subst.
  - intros ->. simpl. apply String.eqb_refl.
Qed.

Lemma has_id_true uid u :
  has_id uid u = Returns true ↔ ∃ o, u = JObj o ∧ o !! "_id" = Some (JStr uid).
Proof.
  unfold prop_is. split.
  - destruct u as [| | | | |o]; simpl; try discriminate;
      try (intros [=H]; discriminate).
    intros [=H]. apply strict_eq_str in H. eauto.
  - intros (o & -> & Ho). simpl. f_equal. by apply strict_eq_str.
Qed.

Lemma has_id_false uid o :
  o !! "_id" ≠ Some (JStr uid) → has_id uid (JObj o) = Returns false.
Proof.
  intros Hne. unfold prop_is. simpl. f_equal.
  destruct (strict_eq (o !! "_id") (Some (JStr uid))) eqn:E; [|done].
  by apply strict_eq_str in E.
Qed.

(** ** Searching the array *)

Lemma findIndex_absent uid l i :
  records l → without_id uid l → findIndex_from (has_id uid) l i = Returns (-1).
Proof.
  intros Hrec. revert i. induction Hrec as [|u l Hu _ IH]; intros i Hno; [done|].
  destruct u as [| | | | |o]; try discriminate. cbn [findIndex_from].
  rewrite has_id_false.
  - apply IH. intros o' Ho'. apply Hno. by right.
  - apply Hno. by left.
Qed.

Lemma findIndex_first uid pre old post i :
  records pre → without_id uid pre → old !! "_id" = Some (JStr uid) →
  findIndex_from (has_id uid) (pre ++ JObj old :: post) i
  = Returns (i + Z.of_nat (length pre)).
Proof.
  intros Hrec. revert i. induction Hrec as [|u l Hu _ IH]; intros i Hno Hold.
  - cbn [app findIndex_from length].
    assert (has_id uid (JObj old) = Returns true) as -> by (apply has_id_true; eauto).
    f_equal. lia.
  - destruct u as [| | | | |o]; try discriminate. cbn [app findIndex_from].
    rewrite has_id_false by (apply Hno; by left).
    rewrite IH; [|intros o' Ho'; apply Hno; by right|done].
    f_equal. cbn [length]. lia.
Qed.

(** Conversely, whatever the array holds, an index that the search
    returns is the position of the first element with that identifier. *)
Lemma findIndex_found uid l i k :
  findIndex_from (has_id uid) l i = Returns k → k ≠ -1 → 0 ≤ i →
  ∃ pre old post,
    l = pre ++ JObj old :: post ∧ old !! "_id" = Some (JStr uid) ∧
    k = i + Z.of_nat (length pre) ∧
    Forall (λ u, has_id uid u = Returns false) pre.
Proof.
  revert i. induction l as [|u l IH]; intros i Hk Hne Hi.
  - cbn in Hk. congruence.
  - cbn [findIndex_from] in Hk.
    destruct (has_id uid u) as [[|]|x] eqn:E; [| |discriminate].
    + apply has_id_true in E as (o & -> & Ho). injection Hk as <-.
      exists [], o, l. cbn. repeat split; [done|lia|constructor].
    + destruct (IH (i + 1) Hk Hne ltac:(lia)) as (pre & old & post & -> & Ho & -> & Hpre).
      exists (u :: pre), old, post. cbn [app length].
      repeat split; [done|lia|by constructor].
Qed.

(** ** The handlers as functions of the stored collection *)

Ltac run_handler h :=
  unfold handle, serve, try_catch, h, bind;
  rewrite ?readUsers_run; unfold lift, ret; cbn [fs ticks].

Lemma list_users_run e d :
  handle GET_users e d =
  match Array_length (stored d) with
  | Returns n => (listing n (stored d), d)
  | Throws x => (failed "Server error while fetching users" x, d)
  end.
Proof.
  run_handler list_users.
  destruct (Array_length (stored d)); reflexivity.
Qed.

Lemma update_user_run uid body e d :
  handle (PUT_users uid body) e d =
  match Array_findIndex (has_id uid) (stored d) with
  | Throws x => (failed "Error updating user" x, d)
  | Returns k =>
      if k =? -1 then (refused 404 "User not found", d)
      else
        let users :=
          set_elem (stored d) k
            (JObj (spread_update (elem (stored d) k) body
                     (JStr (toISOString (clock e 0%nat))))) in
        match write_fault e with
        | Some (x, d') => (failed "Error updating user" x, d')
        | None =>
            (done_with 200 "User updated successfully" (elem users k),
             File (Encodes users))
        end
  end.
Proof.
  run_handler update_user.
  destruct (Array_findIndex _ (stored d)) as [k|x]; [|reflexivity].
  destruct (k =? -1); [reflexivity|].
  unfold new_Date_toISOString, Date_now, bind, ret. cbn [fs ticks].
  rewrite writeUsers_run. destruct (write_fault e) as [[x d']|]; reflexivity.
Qed.

Lemma delete_user_run uid e d :
  handle (DELETE_users uid) e d =
  match Array_findIndex (has_id uid) (stored d) with
  | Throws x => (failed "Error deleting user" x, d)
  | Returns k =>
      if k =? -1 then (refused 404 "User not found", d)
      else
        match write_fault e with
        | Some (x, d') => (failed "Error deleting user" x, d')
        | None =>
            (done_with 200 "User deleted successfully" (elem (stored d) k),
             File (Encodes (splice1 (stored d) k)))
        end
  end.
Proof.
  run_handler delete_user.
  destruct (Array_findIndex _ (stored d)) as [k|x]; [|reflexivity].
  destruct (k =? -1); [reflexivity|].
  rewrite writeUsers_run. destruct (write_fault e) as [[x d']|]; reflexivity.
Qed.

Lemma get_field body k : body ≠ JNull → get body k = Some (field body k).
Proof. by destruct body. Qed.

Lemma create_user_null e d :
  handle (POST_users JNull) e d = (failed "Error creating user" TypeError, d).
Proof. reflexivity. Qed.

Lemma create_user_run body e d :
  body ≠ JNull →
  handle (POST_users body) e d =
  if negb (truthy (field body "name")) || negb (truthy (field body "email")) then
    (refused 400 "Name and email are required fields", d)
  else
    match Array_find (prop_is "email" (field body "email")) (stored d) with
    | Throws x => (failed "Error creating user" x, d)
    | Returns existingUser =>
        if truthy existingUser then (refused 400 "Email already exists", d)
        else
          let user :=
            created e (field body "name") (field body "email")
              (field body "age") (field body "country") in
          match write_fault e with
          | Some (x, d') => (failed "Error creating user" x, d')
          | None =>
              (done_with 201 "User created successfully" (Some user),
               File (Encodes (push (stored d) user)))
          end
    end.
Proof.
  intros Hbody. run_handler create_user. unfold destructure, lift.
  rewrite !get_field by done.
  destruct (negb (truthy (field body "name")) || negb (truthy (field body "email")));
    [reflexivity|].
  rewrite readUsers_run. cbn [fs ticks].
  destruct (Array_find _ (stored d)) as [u|x]; [|reflexivity].
  destruct (truthy u); [reflexivity|].
  unfold generateId, new_Date_toISOString, Date_now, Math_random_toString36,
    bind, ret. cbn [fs ticks].
  rewrite writeUsers_run. destruct (write_fault e) as [[x d']|]; reflexivity.
Qed.

(** ** Positions in the array *)

Lemma elem_middle pre (u : json) post :
  elem (JArr (pre ++ u :: post)) (0 + Z.of_nat (length pre)) = Some u.
Proof.
  unfold elem. rewrite Z.add_0_l, Nat2Z.id.
  assert ((Z.of_nat (length pre) <? 0) = false) as -> by (apply Z.ltb_ge; lia).
  by apply list_lookup_middle.
Qed.

Lemma set_elem_middle pre (u v : json) post :
  set_elem (JArr (pre ++ u :: post)) (0 + Z.of_nat (length pre)) v
  = JArr (pre ++ v :: post).
Proof.
  unfold set_elem. rewrite Z.add_0_l, Nat2Z.id.
  assert ((length pre <? length (pre ++ u :: post))%nat = true) as ->.
  { apply Nat.ltb_lt. rewrite length_app. cbn. lia. }
  f_equal. by rewrite insert_app_r_alt, Nat.sub_diag.
Qed.

Lemma splice1_middle pre (u : json) post :
  splice1 (JArr (pre ++ u :: post)) (0 + Z.of_nat (length pre)) = JArr (pre ++ post).
Proof.
  unfold splice1. rewrite Z.add_0_l, Nat2Z.id. f_equal.
  by apply delete_middle.
Qed.

(** ** Create: the search for the email and the new record *)

Lemma strict_eq_eq (a b : value) : strict_eq a b = true → a = b.
Proof.
  destruct a as [[]|], b as [[]|]; simpl; try discriminate; try done.
  - by intros ->%Bool.eqb_prop.
  - by intros ->%Z.eqb_eq.
  - by intros ->%String.eqb_eq.
Qed.

Lemma strict_eq_primitive (v : json) :
  is_primitive v = true → strict_eq (Some v) (Some v) = true.
Proof.
  destruct v; simpl; try done; intros _.
  - by destruct b.
  - apply Z.eqb_refl.
  - apply String.eqb_refl.
Qed.

Lemma find_in_unused email l :
  records l → email_unused email l →
  find_in (prop_is "email" email) l = Returns None.
Proof.
  induction 1 as [|u l Hu _ IH]; intros Hun; [done|].
  destruct u as [| | | | |o]; try discriminate.
  cbn [find_in prop_is get].
  destruct (strict_eq (o !! "email") email) eqn:E.
  - apply strict_eq_eq in E. destruct (Hun o); [by left|done].
  - apply IH. intros o' Ho'. apply Hun. by right.
Qed.

Lemma find_in_used email l o :
  records l → JObj o ∈ l → strict_eq (o !! "email") email = true →
  ∃ o', find_in (prop_is "email" email) l = Returns (Some (JObj o')).
Proof.
  induction 1 as [|u l Hu _ IH]; intros Hin Heq; [by apply elem_of_nil in Hin|].
  destruct u as [| | | | |o1]; try discriminate.
  cbn [find_in prop_is get].
  destruct (strict_eq (o1 !! "email") email) eqn:E; [by eauto|].
  apply elem_of_cons in Hin as [[= ->]|Hin]; [congruence|by apply IH].
Qed.

Lemma valid_not_null body : valid body → body ≠ JNull.
Proof. by intros [H _] ->. Qed.

(** What create does with a valid body whose email no record has, when
    the write succeeds. *)
Lemma create_user_succeeds e d body l :
  valid body → stored d = JArr l → records l →
  email_unused (field body "email") l → write_fault e = None →
  let user :=
    created e (field body "name") (field body "email")
      (field body "age") (field body "country") in
  handle (POST_users body) e d =
    (done_with 201 "User created successfully" (Some user),
     File (Encodes (JArr (l ++ [user])))).
Proof.
  intros Hv Hd Hrec Hun Hw user.
  rewrite create_user_run by by apply valid_not_null.
  destruct Hv as [-> ->]. cbn [negb orb].
  rewrite Hd. cbn [Array_find]. rewrite find_in_unused by done.
  cbn [truthy]. by rewrite Hw.
Qed.

(** The members of the record that create builds. *)
Lemma created_members e name email age country :
  truthy name = true → truthy email = true →
  ∃ user : gmap string json,
    created e name email age country = JObj user
    ∧ user !! "_id"
      = Some (JStr (pretty (clock e 0%nat) +:+ String.substring 2 5 (random36 e)))
    ∧ user !! "name" = name
    ∧ user !! "email" = email
    ∧ user !! "age" = Some (js_or age JNull)
    ∧ user !! "country" = Some (js_or country (JStr "Unknown"))
    ∧ user !! "createdAt" = Some (JStr (toISOString (clock e 1%nat)))
    ∧ user !! "updatedAt" = Some (JStr (toISOString (clock e 2%nat))).
Proof.
  destruct name as [n|]; [|discriminate]. destruct email as [m|]; [|discriminate].
  intros _ _. eexists. split; [reflexivity|].
  cbn [with_prop]. repeat split;
    repeat (rewrite lookup_insert_ne by done); by rewrite lookup_insert_eq.
Qed.

Lemma string_app_inj (a b c d : string) :
  String.length a = String.length c → a +:+ b = c +:+ d → a = c ∧ b = d.
Proof.
  revert c. induction a as [|x a IH]; intros [|y c] Hlen Heq;
    try discriminate; [done|].
  cbn in Hlen, Heq. injection Heq as -> Heq. injection Hlen as Hlen.
  destruct (IH c Hlen Heq) as [-> ->]. done.
Qed.

Lemma pretty_N_go_length (x : N) (s : string) :
  (String.length s ≤ String.length (pretty_N_go x s))%nat.
Proof.
  revert s. induction (N.lt_wf_0 x) as [x _ IH]; intros s.
  destruct (decide (x = 0%N)) as [->|Hx]; [by rewrite pretty_N_go_0|].
  rewrite pretty_N_go_step by lia.
  etrans; [|apply IH; apply N.div_lt; lia]. cbn. lia.
Qed.

Lemma pretty_Z_nonempty (t : Z) (s : string) : pretty t +:+ s ≠ "".
Proof.
  assert (∀ p : positive, pretty p ≠ "") as Hpos.
  { intros p. unfold pretty, pretty_positive, pretty, pretty_N.
    case_decide; [done|]. rewrite pretty_N_go_step by lia.
    intros Heq.
    pose proof (pretty_N_go_length (N.pos p `div` 10)
      (String (pretty_N_char (N.pos p `mod` 10)) "")) as Hlen.
    rewrite Heq in Hlen. cbn in Hlen. lia. }
  destruct t as [|p|p]; unfold pretty at 1, pretty_Z; [done| |done].
  specialize (Hpos p). by destruct (pretty p).
Qed.

(** ** Runs of creates *)

(** A create that answers 201 has appended the record it answers with. *)
Lemma create_user_201 e d body r d' l :
  handle (POST_users body) e d = (r, d') → status r = 201 →
  stored d = JArr l →
  ∃ u, data r = Some u ∧ stored d' = JArr (l ++ [u]).
Proof.
  intros Hrun Hst Hd.
  assert (body = JNull ∨ body ≠ JNull) as [->|Hbody]
    by (destruct body; auto).
  { rewrite create_user_null in Hrun. by injection Hrun as <- <-. }
  rewrite create_user_run in Hrun by done.
  destruct (negb _ || negb _); [by injection Hrun as <- <-|].
  destruct (Array_find _ _) as [u|x]; [|by injection Hrun as <- <-].
  destruct (truthy u); [by injection Hrun as <- <-|].
  cbv zeta in Hrun.
  destruct (write_fault e) as [[x d'']|]; [by injection Hrun as <- <-|].
  injection Hrun as <- <-. rewrite Hd. cbn. eauto.
Qed.

Lemma creates_accumulate cs d l :
  stored d = JArr l →
  Forall (λ r, status r = 201) (session (creates cs) d).1 →
  ∃ users,
    Forall2 (λ r u, data r = Some u) (session (creates cs) d).1 users
    ∧ stored (session (creates cs) d).2 = JArr (l ++ users).
Proof.
  revert d l. induction cs as [|[e body] cs IH]; intros d l Hd Hall.
  - exists []. cbn. by rewrite app_nil_r.
  - cbn [creates map session fst snd] in *.
    destruct (handle (POST_users body) e d) as [r d1] eqn:Hrun.
    fold (creates cs) in *.
    destruct (session (creates cs) d1) as [rs d2] eqn:Hrest.
    cbn [fst snd] in *. apply Forall_cons in Hall as [Hr Hrs].
    destruct (create_user_201 _ _ _ _ _ _ Hrun Hr Hd) as (u & Hu & Hd1).
    destruct (IH d1 (l ++ [u]) Hd1) as (users & Husers & Hfinal).
    { by rewrite Hrest. }
    rewrite Hrest in Husers, Hfinal. cbn [fst snd] in *.
    exists (u :: users). split; [by constructor|].
    by rewrite Hfinal, <-app_assoc.
Qed.


(** ** The collection stays an array of records *)

Lemma records_app l1 l2 : records (l1 ++ l2) ↔ records l1 ∧ records l2.
Proof. apply Forall_app. Qed.

Lemma created_is_record e name email age country :
  is_record (created e name email age country) = true.
Proof. reflexivity. Qed.

Lemma handle_well_formed r e d :
  well_formed d → write_fault e = None → well_formed (handle r e d).2.
Proof.
  intros (l & Hd & Hrec) Hw.
  assert (well_formed d) as Hwf by (exists l; done).
  destruct r as [|body|uid body|uid].
  - rewrite list_users_run. by destruct (Array_length (stored d)).
  - assert (body = JNull ∨ body ≠ JNull) as [->|Hbody] by (destruct body; auto);
      [done|].
    rewrite create_user_run by done.
    destruct (negb _ || negb _); [done|].
    destruct (Array_find _ _) as [u|x]; [|done].
    destruct (truthy u); [done|]. cbv zeta. rewrite Hw, Hd. cbn.
    eexists. split; [done|]. apply records_app. split; [done|].
    by repeat constructor.
  - rewrite update_user_run, Hd. cbn [Array_findIndex].
    destruct (findIndex_from _ l 0) as [k|x] eqn:Hk; [|done].
    destruct (k =? -1) eqn:Hne; [done|]. apply Z.eqb_neq in Hne.
    destruct (findIndex_found _ _ _ _ Hk Hne ltac:(lia))
      as (pre & old & post & -> & _ & -> & _).
    cbv zeta. rewrite Hw, set_elem_middle. cbn.
    eexists. split; [done|].
    apply records_app in Hrec as [Hpre Hpost%Forall_cons_1].
    apply records_app. split; [done|]. constructor; [done|apply Hpost].
  - rewrite delete_user_run, Hd. cbn [Array_findIndex].
    destruct (findIndex_from _ l 0) as [k|x] eqn:Hk; [|done].
    destruct (k =? -1) eqn:Hne; [done|]. apply Z.eqb_neq in Hne.
    destruct (findIndex_found _ _ _ _ Hk Hne ltac:(lia))
      as (pre & old & post & -> & _ & -> & _).
    rewrite Hw, splice1_middle. cbn.
    eexists. split; [done|].
    apply records_app in Hrec as [Hpre Hpost%Forall_cons_1].
    apply records_app. split; [done|apply Hpost].
Qed.

(** A request that fails for a reason other than the write leaves the
    file alone: only 200 and 201 answers, and failed writes, change it. *)
Lemma handle_unchanged r e d :
  write_fault e = None →
  status (handle r e d).1 ≠ 200 → status (handle r e d).1 ≠ 201 →
  (handle r e d).2 = d.
Proof.
  intros Hw. destruct r as [|body|uid body|uid].
  - rewrite list_users_run. by destruct (Array_length (stored d)).
  - assert (body = JNull ∨ body ≠ JNull) as [->|Hbody] by (destruct body; auto);
      [done|].
    rewrite create_user_run by done.
    destruct (negb _ || negb _); [done|].
    destruct (Array_find _ _) as [u|x]; [|done].
    destruct (truthy u); [done|]. cbv zeta. by rewrite Hw.
  - rewrite update_user_run.
    destruct (Array_findIndex _ _) as [k|x]; [|done].
    destruct (k =? -1); [done|]. cbv zeta. by rewrite Hw.
  - rewrite delete_user_run.
    destruct (Array_findIndex _ _) as [k|x]; [|done].
    destruct (k =? -1); [done|]. by rewrite Hw.
Qed.

(** ** Update and delete of a record that exists *)

Ltac not_among :=
  let o := fresh "o" in
  let Ho := fresh "Ho" in
  intros o Ho;
  repeat (apply elem_of_cons in Ho as [[= ->]|Ho]; [vm_compute; discriminate|]);
  by apply elem_of_nil in Ho.

Section existing_record.

(** The collection on the disk is [pre ++ JObj old :: post], where [old]
    is the first record with the identifier [uid], and the write of this
    request succeeds. *)
Variables (e : env) (d : disk) (uid : string).
Variables (pre : list json) (old : gmap string json) (post : list json).
Hypothesis on_disk : stored d = JArr (pre ++ JObj old :: post).
Hypothesis pre_records : records pre.
Hypothesis pre_other : without_id uid pre.
Hypothesis old_id : old !! "_id" = Some (JStr uid).
Hypothesis write_ok : write_fault e = None.

Lemma found_index :
  Array_findIndex (has_id uid) (stored d) = Returns (0 + Z.of_nat (length pre))
  ∧ (0 + Z.of_nat (length pre) =? -1) = false.
Proof using on_disk pre_records pre_other old_id.
  rewrite on_disk. cbn [Array_findIndex].
  split; [by apply findIndex_first|apply Z.eqb_neq; lia].
Qed.

Lemma update_user_found body :
  handle (PUT_users uid body) e d =
    (done_with 200 "User updated successfully"
       (Some (JObj (spread_update (Some (JObj old)) body
                      (JStr (toISOString (clock e 0%nat)))))),
     File (Encodes (JArr (pre ++
       JObj (spread_update (Some (JObj old)) body
               (JStr (toISOString (clock e 0%nat)))) :: post)))).
Proof using on_disk pre_records pre_other old_id write_ok.
  rewrite update_user_run. destruct found_index as [-> ->].
  cbv zeta. rewrite write_ok, on_disk.
  by rewrite elem_middle, set_elem_middle, elem_middle.
Qed.

(** C1. Update (PUT /users/:id) of an existing record stores, and answers
    with, the shallow merge of the body over the record, [updatedAt]
    then set to the server's time: a property other than [updatedAt] has
    the body's value when the body has it and the record's value
    otherwise, so a [_id] or [createdAt] sent by the client replaces the
    stored one, while [updatedAt] is the server's time whatever the body
    holds. *)
Theorem update_is_unrestricted_merge body :
  ∃ merged : gmap string json,
    handle (PUT_users uid body) e d =
      (done_with 200 "User updated successfully" (Some (JObj merged)),
       File (Encodes (JArr (pre ++ JObj merged :: post))))
    ∧ (∀ k, k ≠ "updatedAt" →
         merged !! k = match own_props body !! k with
                       | Some v => Some v
                       | None => old !! k
                       end)
    ∧ merged !! "updatedAt" = Some (JStr (toISOString (clock e 0%nat)))
    ∧ (∀ v, own_props body !! "_id" = Some v → merged !! "_id" = Some v)
    ∧ (∀ v, own_props body !! "createdAt" = Some v →
         merged !! "createdAt" = Some v).
Proof using on_disk pre_records pre_other old_id write_ok.
  eexists. split; [apply update_user_found|].
  unfold spread_update. cbn [from_option own_props].
  assert (∀ k, k ≠ "updatedAt" →
    <["updatedAt" := JStr (toISOString (clock e 0%nat))]>
      (own_props body ∪ old) !! k
    = match own_props body !! k with Some v => Some v | None => old !! k end)
    as Hmerge.
  { intros k Hk. rewrite lookup_insert_ne by done.
    rewrite lookup_union. destruct (own_props body !! k), (old !! k); done. }
  split; [done|]. split; [by rewrite lookup_insert_eq|].
  split; intros v Hv; rewrite Hmerge, ?Hv; done.
Qed.

(** C5 (amended). Update of an existing record with the body
    [{name: "X"}] leaves its [email], [country] and [createdAt] as they
    were, sets [name] to ["X"] and leaves every other record of the
    collection as it was.  [updatedAt] becomes the time that the server
    reads at the request, whatever the previous [updatedAt] was: the two
    are not compared, and the new one is not earlier than the previous
    one provided the clock has not gone back since the previous one was
    read from it. *)
Theorem update_name_only (x : string) :
  ∃ (merged : gmap string json) (l' : list json),
    handle (PUT_users uid (JObj {[ "name" := JStr x ]})) e d =
      (done_with 200 "User updated successfully" (Some (JObj merged)),
       File (Encodes (JArr l')))
    ∧ l' !! length pre = Some (JObj merged)
    ∧ merged !! "email" = old !! "email"
    ∧ merged !! "country" = old !! "country"
    ∧ merged !! "createdAt" = old !! "createdAt"
    ∧ merged !! "name" = Some (JStr x)
    ∧ merged !! "updatedAt" = Some (JStr (toISOString (clock e 0%nat)))
    ∧ (∀ t0, old !! "updatedAt" = Some (JStr (toISOString t0)) →
         t0 ≤ clock e 0%nat →
         ∃ t, merged !! "updatedAt" = Some (JStr (toISOString t)) ∧ t0 ≤ t)
    ∧ length l' = length (pre ++ JObj old :: post)
    ∧ ∀ j, j ≠ length pre → l' !! j = (pre ++ JObj old :: post) !! j.
Proof using on_disk pre_records pre_other old_id write_ok.
  eexists _, _.
  split; [apply update_user_found|].
  unfold spread_update. cbn [from_option own_props].
  split; [by apply list_lookup_middle|].
  assert (∀ k, k ≠ "updatedAt" → k ≠ "name" →
    <["updatedAt" := JStr (toISOString (clock e 0%nat))]>
      ({[ "name" := JStr x ]} ∪ old) !! k = old !! k) as Hkeep.
  { intros k Hk Hk'. rewrite lookup_insert_ne by done.
    rewrite lookup_union, lookup_singleton_ne by done.
    by destruct (old !! k). }
  split; [by apply Hkeep|]. split; [by apply Hkeep|].
  split; [by apply Hkeep|].
  split.
  { rewrite lookup_insert_ne by done.
    rewrite lookup_union, lookup_singleton_eq. by destruct (old !! "name"). }
  split; [by rewrite lookup_insert_eq|].
  split.
  { intros t0 _ Hclock. exists (clock e 0%nat).
    split; [by rewrite lookup_insert_eq|done]. }
  split; [by rewrite !length_app|].
  intros j Hj. rewrite !lookup_app.
  destruct (pre !! j) eqn:E; [done|].
  apply lookup_ge_None in E.
  destruct (j - length pre)%nat eqn:E'; [lia|done].
Qed.

(** C4 (amended). Delete (DELETE /users/:id) of an identifier that the
    collection holds answers 200 with the first record that carries it,
    removes that one record, so that the collection is shorter by exactly
    one and the other records keep their order, and a listing that
    follows returns the remaining records; the identifier is gone from
    that listing when no other record of the collection carried it. *)
Theorem delete_removes_first_match (e' : env) :
  ∃ d',
    handle (DELETE_users uid) e d =
      (done_with 200 "User deleted successfully" (Some (JObj old)), d')
    ∧ stored d' = JArr (pre ++ post)
    ∧ S (length (pre ++ post)) = length (pre ++ JObj old :: post)
    ∧ handle GET_users e' d' =
        (listing (Some (JNum (Z.of_nat (length (pre ++ post)))))
           (JArr (pre ++ post)), d')
    ∧ (without_id uid post → without_id uid (pre ++ post)).
Proof using on_disk pre_records pre_other old_id write_ok.
  exists (File (Encodes (JArr (pre ++ post)))).
  split; [|split; [done|split; [|split]]].
  - rewrite delete_user_run. destruct found_index as [-> ->].
    by rewrite write_ok, on_disk, elem_middle, splice1_middle.
  - rewrite !length_app. cbn [length]. lia.
  - by rewrite list_users_run.
  - intros Hpost o [Ho|Ho]%elem_of_app; [by apply pre_other|by apply Hpost].
Qed.

End existing_record.

Lemma update_is_unrestricted_merge_witness :
  ∃ merged : gmap string json,
    (handle (PUT_users "1700000000001zzzzz"
       (JObj {[ "_id" := JStr "7"; "updatedAt" := JStr "never" ]}))
       env_later two_users).1
    = done_with 200 "User updated successfully" (Some (JObj merged))
    ∧ merged !! "_id" = Some (JStr "7")
    ∧ merged !! "name" = Some (JStr "Bob")
    ∧ merged !! "updatedAt" = Some (JStr "2023-11-14T22:14:20.000Z").
Proof.
  destruct (update_is_unrestricted_merge env_later two_users "1700000000001zzzzz"
    [JObj ann_record] bob_record []
    ltac:(reflexivity) ltac:(repeat constructor) ltac:(not_among)
    ltac:(reflexivity) ltac:(reflexivity)
    (JObj {[ "_id" := JStr "7"; "updatedAt" := JStr "never" ]}))
    as (merged & Hrun & Hmerge & Hup & Hid & _).
  exists merged. split; [by rewrite Hrun|]. split; [by apply Hid|].
  split; [by rewrite Hmerge|exact Hup].
Defined.

Lemma update_name_only_witness :
  ∃ merged : gmap string json,
    (handle (PUT_users "1700000000001zzzzz" (JObj {[ "name" := JStr "Rob" ]}))
       env_later two_users).1
    = done_with 200 "User updated successfully" (Some (JObj merged))
    ∧ merged !! "name" = Some (JStr "Rob")
    ∧ merged !! "email" = Some (JStr "bob@example.com")
    ∧ merged !! "updatedAt" = Some (JStr "2023-11-14T22:14:20.000Z")
    ∧ ∃ t, merged !! "updatedAt" = Some (JStr (toISOString t))
           ∧ 1700000000003 ≤ t.
Proof.
  destruct (update_name_only env_later two_users "1700000000001zzzzz"
    [JObj ann_record] bob_record []
    ltac:(reflexivity) ltac:(repeat constructor) ltac:(not_among)
    ltac:(reflexivity) ltac:(reflexivity) "Rob")
    as (merged & l' & Hrun & _ & Hemail & _ & _ & Hname & Hup & Hlater & _).
  exists merged. split; [by rewrite Hrun|]. split; [exact Hname|].
  split; [by rewrite Hemail|]. split; [exact Hup|].
  apply Hlater; [vm_compute; reflexivity|vm_compute; discriminate].
Defined.

(** C5, as stated, fails: with the system clock set back to 2020, the
    update of Bob's record, whose [updatedAt] was read in 2023, is
    answered 200 and stores an [updatedAt] that is earlier than the
    previous one, as instants and as ISO strings. *)
Lemma update_with_clock_set_back :
  status (handle (PUT_users "1700000000001zzzzz"
            (JObj {[ "name" := JStr "Rob" ]})) env_back two_users).1 = 200
  ∧ bob_record !! "updatedAt" = Some (JStr (toISOString 1700000000003))
  ∧ member (data (handle (PUT_users "1700000000001zzzzz"
              (JObj {[ "name" := JStr "Rob" ]})) env_back two_users).1)
      "updatedAt"
    = Some (JStr (toISOString 1600000000000))
  ∧ 1600000000000 < 1700000000003
  ∧ toISOString 1600000000000 = "2020-09-13T12:26:40.000Z"
  ∧ toISOString 1700000000003 = "2023-11-14T22:13:20.003Z"
  ∧ String.ltb (toISOString 1600000000000) (toISOString 1700000000003) = true
  ∧ listed_ids (handle GET_users env_back
       (handle (PUT_users "1700000000001zzzzz"
          (JObj {[ "name" := JStr "Rob" ]})) env_back two_users).2).1
    = [Some (JStr "17000000000004fzyo"); Some (JStr "1700000000001zzzzz")].
Proof. vm_compute. done. Qed.

Lemma delete_removes_first_match_witness :
  (handle (DELETE_users "17000000000004fzyo") env_later two_users).1
  = done_with 200 "User deleted successfully" (Some (JObj ann_record))
  ∧ stored (handle (DELETE_users "17000000000004fzyo") env_later two_users).2
    = JArr [JObj bob_record].
Proof.
  destruct (delete_removes_first_match env_later two_users "17000000000004fzyo"
    [] ann_record [JObj bob_record]
    ltac:(reflexivity) ltac:(constructor) ltac:(not_among)
    ltac:(reflexivity) ltac:(reflexivity) env_later)
    as (d' & Hrun & Hd' & _).
  rewrite Hrun. split; [reflexivity|exact Hd'].
Defined.

(** The sample file is what the two creates leave. *)
Example two_users_created :
  (session [(env_ann, POST_users ann); (env_bob, POST_users bob)] NoFile).2
  = two_users.
Proof. vm_compute. reflexivity. Qed.

(** C4, as stated, fails: once an update has given Bob's record the
    identifier of Ann's, deleting that identifier answers 200 with Ann's
    record, and the listing that follows still holds a record with the
    identifier. *)
Lemma deleted_id_still_listed :
  status <$> (session renumbering NoFile).1 = [201; 201; 200; 200; 200]
  ∧ (λ r, member (data r) "_id") <$> (session renumbering NoFile).1 !! 3%nat
    = Some (Some (JStr "17000000000004fzyo"))
  ∧ listed_ids <$> (session renumbering NoFile).1 !! 4%nat
    = Some [Some (JStr "17000000000004fzyo")].
Proof. vm_compute. done. Qed.

(** ** Identifiers that are not in the collection *)

(** C6. For an identifier that no record of the collection carries,
    update (PUT /users/:id) and delete (DELETE /users/:id) both answer
    404 with the message "User not found", and the file is left as it
    was: nothing is written, whatever a write would have done. *)
Theorem unknown_id_not_found e d uid body l :
  stored d = JArr l → records l → without_id uid l →
  handle (PUT_users uid body) e d = (refused 404 "User not found", d)
  ∧ handle (DELETE_users uid) e d = (refused 404 "User not found", d).
Proof.
  intros Hd Hrec Hno.
  rewrite update_user_run, delete_user_run, Hd. cbn [Array_findIndex].
  by rewrite (findIndex_absent _ _ _ Hrec Hno).
Qed.

Lemma unknown_id_not_found_witness :
  handle (PUT_users "42" ann) env_later two_users
  = (refused 404 "User not found", two_users)
  ∧ handle (DELETE_users "42") env_later two_users
    = (refused 404 "User not found", two_users).
Proof.
  apply (unknown_id_not_found env_later two_users "42" ann
    [JObj ann_record; JObj bob_record]).
  - reflexivity.
  - repeat constructor.
  - not_among.
Defined.

(** ** Create *)

Section successful_create.

(** A valid body, whose email no record of the collection [l] on the disk
    has, and a write that succeeds. *)
Variables (e : env) (d : disk) (body : json) (l : list json).
Hypothesis body_valid : valid body.
Hypothesis on_disk : stored d = JArr l.
Hypothesis all_records : records l.
Hypothesis email_new : email_unused (field body "email") l.
Hypothesis write_ok : write_fault e = None.

Lemma create_user_created :
  handle (POST_users body) e d =
    (done_with 201 "User created successfully"
       (Some (created e (field body "name") (field body "email")
                (field body "age") (field body "country"))),
     File (Encodes (JArr (l ++
       [created e (field body "name") (field body "email")
          (field body "age") (field body "country")])))).
Proof using body_valid on_disk all_records email_new write_ok.
  by apply create_user_succeeds.
Qed.

(** C2 (amended). A create (POST /users) with a valid name and email
    that succeeds answers 201 with a record whose [_id] is present and
    not empty: the decimal reading of the clock followed by at most five
    characters of the random string.  The identifier is compared with no
    earlier one; it differs from an identifier generated at another
    reading with as many digits, or at the same reading with another
    random suffix. *)
Theorem created_id_from_clock_and_random :
  ∃ (user : gmap string json) (id : string) (d' : disk),
    handle (POST_users body) e d =
      (done_with 201 "User created successfully" (Some (JObj user)), d')
    ∧ user !! "_id" = Some (JStr id)
    ∧ id ≠ ""
    ∧ id = pretty (clock e 0%nat) +:+ String.substring 2 5 (random36 e)
    ∧ ∀ (t : Z) (r : string),
        String.length (pretty t) = String.length (pretty (clock e 0%nat)) →
        pretty t +:+ String.substring 2 5 r = id →
        t = clock e 0%nat
        ∧ String.substring 2 5 r = String.substring 2 5 (random36 e).
Proof using body_valid on_disk all_records email_new write_ok.
  destruct (created_members e (field body "name") (field body "email")
    (field body "age") (field body "country")) as (user & Hu & Hid & _);
    [apply body_valid..|].
  exists user. eexists _, _.
  split; [rewrite <-Hu; apply create_user_created|].
  split; [exact Hid|]. split; [apply pretty_Z_nonempty|]. split; [done|].
  intros t r Hlen Heq.
  apply string_app_inj in Heq as [Ht Hr]; [|done].
  split; [by apply (inj pretty)|done].
Qed.

(** C7 (amended). A create that succeeds appends the new record at the
    end of the collection and answers 201 with that record as [data];
    its [country] is the supplied value when that is truthy and
    "Unknown" otherwise (omitted, or falsy), its [age] is the supplied
    value when that is truthy and [null] otherwise (absent, or falsy),
    and [createdAt] and [updatedAt] are the times the server reads while
    it builds the record, one reading each, the same when the clock does
    not advance in between. *)
Theorem create_appends_record :
  ∃ (user : gmap string json) (d' : disk),
    handle (POST_users body) e d =
      (done_with 201 "User created successfully" (Some (JObj user)), d')
    ∧ stored d' = JArr (l ++ [JObj user])
    ∧ user !! "name" = field body "name"
    ∧ user !! "email" = field body "email"
    ∧ (∀ c, field body "country" = Some c → truthy_json c = true →
         user !! "country" = Some c)
    ∧ (truthy (field body "country") = false →
         user !! "country" = Some (JStr "Unknown"))
    ∧ (∀ a, field body "age" = Some a → truthy_json a = true →
         user !! "age" = Some a)
    ∧ (truthy (field body "age") = false → user !! "age" = Some JNull)
    ∧ user !! "createdAt" = Some (JStr (toISOString (clock e 1%nat)))
    ∧ user !! "updatedAt" = Some (JStr (toISOString (clock e 2%nat)))
    ∧ (clock e 1%nat = clock e 2%nat → user !! "createdAt" = user !! "updatedAt").
Proof using body_valid on_disk all_records email_new write_ok.
  destruct (created_members e (field body "name") (field body "email")
    (field body "age") (field body "country"))
    as (user & Hu & _ & Hname & Hemail & Hage & Hcountry & Hc & Hup);
    [apply body_valid..|].
  exists user. eexists.
  split; [rewrite <-Hu; apply create_user_created|].
  rewrite Hu, Hage, Hcountry, Hc, Hup. cbn [stored].
  repeat split; try done.
  - intros c -> Hc'. cbn [js_or]. by rewrite Hc'.
  - destruct (field body "country") as [c|]; [|done].
    cbn [truthy js_or]. by intros ->.
  - intros a -> Ha. cbn [js_or]. by rewrite Ha.
  - destruct (field body "age") as [a|]; [|done].
    cbn [truthy js_or]. by intros ->.
  - by intros ->.
Qed.

(** C10. Create fills the optional members by truthiness, not by
    presence: when the [age] of the request is falsy, as are [0], the
    empty string, [false] and [null], the stored [age] is [null] and not
    the supplied value, and when the [country] of the request is falsy,
    as is the empty string, the stored [country] is "Unknown". *)
Theorem create_defaults_by_truthiness :
  ∃ (user : gmap string json),
    handle (POST_users body) e d =
      (done_with 201 "User created successfully" (Some (JObj user)),
       File (Encodes (JArr (l ++ [JObj user]))))
    ∧ (∀ a, a ∈ [JNum 0; JStr ""; JBool false; JNull] →
         field body "age" = Some a → user !! "age" = Some JNull)
    ∧ (truthy (field body "age") = false → user !! "age" = Some JNull)
    ∧ (field body "country" = Some (JStr "") →
         user !! "country" = Some (JStr "Unknown"))
    ∧ (truthy (field body "country") = false →
         user !! "country" = Some (JStr "Unknown")).
Proof using body_valid on_disk all_records email_new write_ok.
  destruct (created_members e (field body "name") (field body "email")
    (field body "age") (field body "country"))
    as (user & Hu & _ & _ & _ & Hage & Hcountry & _); [apply body_valid..|].
  exists user.
  split; [rewrite <-Hu; apply create_user_created|].
  rewrite Hage, Hcountry.
  assert (truthy (field body "age") = false →
          Some (js_or (field body "age") JNull) = Some JNull) as Hfalsy.
  { destruct (field body "age") as [a|]; [|done]. cbn [truthy js_or]. by intros ->. }
  assert (truthy (field body "country") = false →
          Some (js_or (field body "country") (JStr "Unknown"))
          = Some (JStr "Unknown")) as Hfalsy'.
  { destruct (field body "country") as [c|]; [|done]. cbn [truthy js_or]. by intros ->. }
  repeat split; try done.
  - intros a Ha Hfield. apply Hfalsy. rewrite Hfield.
    repeat (apply elem_of_cons in Ha as [->|Ha]; [done|]).
    by apply elem_of_nil in Ha.
  - intros Hfield. apply Hfalsy'. by rewrite Hfield.
Qed.

End successful_create.
(** C3. Create (POST /users) answers 400 "Name and email are required
    fields" when the body has no name or no email, and 400 "Email
    already exists" when a record of the collection has the same email;
    in both cases nothing is written and the file is as it was. *)
Theorem create_rejects_missing_or_taken e d body :
  body ≠ JNull →
  (field body "name" = None ∨ field body "email" = None →
   handle (POST_users body) e d =
     (refused 400 "Name and email are required fields", d))
  ∧ (∀ l o email,
       valid body → stored d = JArr l → records l →
       field body "email" = Some email → is_primitive email = true →
       JObj o ∈ l → o !! "email" = Some email →
       handle (POST_users body) e d = (refused 400 "Email already exists", d)).
Proof.
  intros Hbody. split.
  - intros Hmiss. rewrite create_user_run by done.
    destruct Hmiss as [-> | ->]; cbn [truthy negb orb]; [done|].
    by rewrite orb_true_r.
  - intros l o email [Hn Hm] Hd Hrec Hemail Hprim Hin Ho.
    rewrite create_user_run by done. rewrite Hn, Hm. cbn [negb orb].
    rewrite Hd. cbn [Array_find].
    destruct (find_in_used (field body "email") l o Hrec Hin) as [o' ->]; [|done].
    rewrite Ho, Hemail. by apply strict_eq_primitive.
Qed.

Lemma created_id_from_clock_and_random_witness :
  ∃ (user : gmap string json),
    (handle (POST_users cara) env_later two_users).1
    = done_with 201 "User created successfully" (Some (JObj user))
    ∧ user !! "_id" = Some (JStr "17000000600008k2ja").
Proof.
  destruct (created_id_from_clock_and_random env_later two_users cara
    [JObj ann_record; JObj bob_record]
    ltac:(split; reflexivity) ltac:(reflexivity) ltac:(repeat constructor)
    ltac:(not_among) ltac:(reflexivity))
    as (user & id & d' & Hrun & Hid & _ & -> & _).
  exists user. split; [by rewrite Hrun|exact Hid].
Defined.

(** C2, as stated, fails: two creates served in the same millisecond
    with the same random string both answer 201, and the second record
    gets the identifier of the first, which is in the collection. *)
Lemma same_millisecond_same_id :
  status <$> (session same_millisecond NoFile).1 = [201; 201]
  ∧ (λ r, member (data r) "_id") <$> (session same_millisecond NoFile).1
    = [Some (JStr "17000000000004fzyo"); Some (JStr "17000000000004fzyo")]
  ∧ (λ r, member (data r) "email") <$> (session same_millisecond NoFile).1
    = [Some (JStr "ann@example.com"); Some (JStr "bob@example.com")].
Proof. vm_compute. done. Qed.

Lemma create_rejects_missing_or_taken_witness :
  handle (POST_users (JObj {[ "name" := JStr "Dan" ]})) env_later two_users
  = (refused 400 "Name and email are required fields", two_users)
  ∧ handle (POST_users bob) env_later two_users
    = (refused 400 "Email already exists", two_users).
Proof.
  split.
  - apply (create_rejects_missing_or_taken env_later two_users
      (JObj {[ "name" := JStr "Dan" ]}) ltac:(discriminate)).
    right. reflexivity.
  - apply (proj2 (create_rejects_missing_or_taken env_later two_users bob
      ltac:(discriminate))
      [JObj ann_record; JObj bob_record] bob_record (JStr "bob@example.com")).
    + split; reflexivity.
    + reflexivity.
    + repeat constructor.
    + reflexivity.
    + reflexivity.
    + apply elem_of_cons. right. apply elem_of_cons. by left.
    + reflexivity.
Defined.

Lemma create_appends_record_witness :
  ∃ (user : gmap string json),
    handle (POST_users cara) env_later two_users
    = (done_with 201 "User created successfully" (Some (JObj user)),
       File (Encodes (JArr [JObj ann_record; JObj bob_record; JObj user])))
    ∧ user !! "country" = Some (JStr "Kenya")
    ∧ user !! "age" = Some (JNum 31).
Proof.
  destruct (create_appends_record env_later two_users cara
    [JObj ann_record; JObj bob_record]
    ltac:(split; reflexivity) ltac:(reflexivity) ltac:(repeat constructor)
    ltac:(not_among) ltac:(reflexivity))
    as (user & d' & Hrun & Hd' & _ & _ & Hcountry & _ & Hage & _).
  exists user. split; [|split].
  - rewrite Hrun. f_equal. destruct d' as [| |[|v]]; try discriminate.
    cbn in Hd'. by rewrite Hd'.
  - by apply Hcountry.
  - by apply Hage.
Defined.

(** C7, as stated, fails: a create whose body has the age [0] succeeds
    and stores the age [null], not the supplied value; the clock having
    advanced while the record was built, its [createdAt] and [updatedAt]
    differ as well. *)
Lemma create_age_zero_stored_null :
  status (handle (POST_users bob) env_bob NoFile).1 = 201
  ∧ field bob "age" = Some (JNum 0)
  ∧ member (data (handle (POST_users bob) env_bob NoFile).1) "age" = Some JNull
  ∧ member (data (handle (POST_users bob) env_bob NoFile).1) "createdAt"
    = Some (JStr "2023-11-14T22:13:20.002Z")
  ∧ member (data (handle (POST_users bob) env_bob NoFile).1) "updatedAt"
    = Some (JStr "2023-11-14T22:13:20.003Z")
  ∧ stored (handle (POST_users bob) env_bob NoFile).2 = JArr [JObj bob_record].
Proof. vm_compute. done. Qed.

Lemma create_defaults_by_truthiness_witness :
  ∃ (user : gmap string json),
    (handle (POST_users bob) env_bob NoFile).1
    = done_with 201 "User created successfully" (Some (JObj user))
    ∧ user !! "age" = Some JNull
    ∧ user !! "country" = Some (JStr "Unknown").
Proof.
  destruct (create_defaults_by_truthiness env_bob NoFile bob []
    ltac:(split; reflexivity) ltac:(reflexivity) ltac:(constructor)
    ltac:(not_among) ltac:(reflexivity))
    as (user & Hrun & Hage & _ & _ & Hcountry).
  exists user. split; [by rewrite Hrun|]. split.
  - apply (Hage (JNum 0)); [|reflexivity]. by left.
  - by apply Hcountry.
Defined.

(** ** Listing after creating *)

(** C8. Starting from an empty collection, creating N users and then
    listing (GET /users) answers 200 with [count] equal to N and with
    [data] holding exactly the N created records, in the order of their
    creation, so that the length of [data] is [count]. *)
Theorem creates_then_listing cs e d :
  stored d = JArr [] →
  Forall (λ r, status r = 201) (session (creates cs) d).1 →
  ∃ users,
    Forall2 (λ r u, data r = Some u) (session (creates cs) d).1 users
    ∧ handle GET_users e (session (creates cs) d).2 =
        (Response 200 true None (Some (JNum (Z.of_nat (length cs))))
           (Some (JArr users)) None,
         (session (creates cs) d).2)
    ∧ length users = length cs.
Proof.
  intros Hd Hall.
  destruct (creates_accumulate cs d [] Hd Hall) as (users & Husers & Hfinal).
  assert (length users = length cs) as Hlen.
  { apply Forall2_length in Husers. rewrite <-Husers. clear.
    revert d. induction cs as [|[e b] cs IH]; intros d; [done|].
    cbn [creates map session fst snd].
    destruct (handle (POST_users b) e d) as [r d1].
    fold (creates cs). specialize (IH d1).
    destruct (session (creates cs) d1). cbn in *. by rewrite IH. }
  exists users. split; [done|]. split; [|done].
  rewrite list_users_run, Hfinal. cbn. by rewrite Hlen.
Qed.

Lemma creates_then_listing_witness :
  count (handle GET_users env_later
           (session (creates [(env_ann, ann); (env_bob, bob)]) NoFile).2).1
  = Some (JNum 2).
Proof.
  destruct (creates_then_listing [(env_ann, ann); (env_bob, bob)] env_later NoFile
    ltac:(reflexivity) ltac:(repeat constructor))
    as (users & _ & Hrun & _).
  by rewrite Hrun.
Defined.

(** ** The store *)

(** C9. [readUsers] returns the empty array, and throws nothing, when
    the file is missing or cannot be read (or holds text that does not
    parse); [writeUsers] replaces the whole file by the serialization of
    its argument, and an error of the write is thrown to the caller. *)
Theorem store_read_fallback_write_propagates e s users :
  (fs s = NoFile ∨ (∃ x, fs s = NoAccess x) ∨ fs s = File Garbage →
   readUsers e s = (Returns (JArr []), s))
  ∧ (write_fault e = None →
     writeUsers users e s
     = (Returns tt, State (File (JSON_stringify users)) (ticks s)))
  ∧ (∀ x d, write_fault e = Some (x, d) →
     writeUsers users e s = (Throws x, State d (ticks s))).
Proof.
  split; [|split].
  - rewrite readUsers_run.
    intros [H|[[x H]|H]]; by rewrite H.
  - intros H. by rewrite writeUsers_run, H.
  - intros x d H. by rewrite writeUsers_run, H.
Qed.

Lemma store_read_fallback_write_propagates_witness :
  readUsers env_later (State (NoAccess (SystemError "EACCES")) 0)
  = (Returns (JArr []), State (NoAccess (SystemError "EACCES")) 0)
  ∧ writeUsers (JArr []) env_later (State two_users 0)
    = (Returns tt, State (File (Encodes (JArr []))) 0).
Proof.
  destruct (store_read_fallback_write_propagates env_later
    (State (NoAccess (SystemError "EACCES")) 0) (JArr [])) as (Hread & _ & _).
  destruct (store_read_fallback_write_propagates env_later
    (State two_users 0) (JArr [])) as (_ & Hwrite & _).
  split.
  - apply Hread. right. left. by eexists.
  - by apply Hwrite.
Defined.

(** An error of the write reaches the client as a 500 answer. *)
Lemma create_write_fault e d body l x d' :
  valid body → stored d = JArr l → records l →
  email_unused (field body "email") l → write_fault e = Some (x, d') →
  handle (POST_users body) e d = (failed "Error creating user" x, d').
Proof.
  intros Hv Hd Hrec Hun Hw.
  rewrite create_user_run by by apply valid_not_null.
  destruct Hv as [-> ->]. cbn [negb orb].
  rewrite Hd. cbn [Array_find]. rewrite find_in_unused by done.
  cbn [truthy]. by rewrite Hw.
Qed.

(** The searches read a property of every element they pass: a [null]
    in the array before the record makes them throw, which is why the
    statements above are about arrays of records. *)
Example null_element_throws :
  handle (DELETE_users "17000000000004fzyo") env_later
    (File (Encodes (JArr [JNull; JObj ann_record])))
  = (failed "Error deleting user" TypeError,
     File (Encodes (JArr [JNull; JObj ann_record]))).
Proof. reflexivity. Qed.

(** ** Sessions with a steady clock *)

Lemma stamped_le T T' l : T ≤ T' → stamped T l → stamped T' l.
Proof.
  intros HT Hl o Ho. destruct (Hl o Ho) as (t & Ht & Hle).
  exists t. split; [done|lia].
Qed.

(** A request served while the clock goes from [T] to [clock e 2] keeps
    the collection an array of records stamped by the clock. *)
Lemma handle_stamped r e d l T :
  stored d = JArr l → stamped T l →
  write_fault e = None →
  T ≤ clock e 0%nat → clock e 0%nat ≤ clock e 1%nat →
  clock e 1%nat ≤ clock e 2%nat →
  ∃ l', stored (handle r e d).2 = JArr l' ∧ stamped (clock e 2%nat) l'.
Proof.
  intros Hd Hst Hw H0 H1 H2.
  assert (stamped (clock e 2%nat) l) as Hst' by (eapply stamped_le; [|done]; lia).
  assert (∃ l', stored d = JArr l' ∧ stamped (clock e 2%nat) l') as Hkeep
    by (exists l; done).
  destruct r as [|body|uid body|uid].
  - rewrite list_users_run. by destruct (Array_length (stored d)).
  - assert (body = JNull ∨ body ≠ JNull) as [->|Hbody] by (destruct body; auto);
      [done|].
    rewrite create_user_run by done.
    destruct (negb _ || negb _) eqn:Hvalid; [done|].
    destruct (Array_find _ _) as [u|x]; [|done].
    destruct (truthy u); [done|]. cbv zeta. rewrite Hw, Hd. cbn.
    eexists. split; [done|].
    apply orb_false_elim in Hvalid as [Hn%negb_false_iff Hm%negb_false_iff].
    destruct (created_members e (field body "name") (field body "email")
      (field body "age") (field body "country") Hn Hm)
      as (user & -> & _ & _ & _ & _ & _ & _ & Hup).
    intros o [Ho|Ho]%elem_of_app; [by apply Hst'|].
    apply list_elem_of_singleton in Ho as [= ->].
    exists (clock e 2%nat). split; [done|lia].
  - rewrite update_user_run, Hd. cbn [Array_findIndex].
    destruct (findIndex_from _ l 0) as [k|x] eqn:Hk; [|done].
    destruct (k =? -1) eqn:Hne; [done|]. apply Z.eqb_neq in Hne.
    destruct (findIndex_found _ _ _ _ Hk Hne ltac:(lia))
      as (pre & old & post & -> & _ & -> & _).
    cbv zeta. rewrite Hw, set_elem_middle. cbn.
    eexists. split; [done|].
    intros o [Ho|[[= ->]|Ho]%elem_of_cons]%elem_of_app.
    + apply Hst'. apply elem_of_app. by left.
    + exists (clock e 0%nat). split; [|lia].
      unfold spread_update. by rewrite lookup_insert_eq.
    + apply Hst'. apply elem_of_app. right. by right.
  - rewrite delete_user_run, Hd. cbn [Array_findIndex].
    destruct (findIndex_from _ l 0) as [k|x] eqn:Hk; [|done].
    destruct (k =? -1) eqn:Hne; [done|]. apply Z.eqb_neq in Hne.
    destruct (findIndex_found _ _ _ _ Hk Hne ltac:(lia))
      as (pre & old & post & -> & _ & -> & _).
    rewrite Hw, splice1_middle. cbn.
    eexists. split; [done|].
    intros o [Ho|Ho]%elem_of_app; apply Hst'; apply elem_of_app;
      [by left|right; by right].
Qed.

(** After a steady session that started from an empty collection, every
    record's [updatedAt] is a reading of the clock, and a reading taken
    later is not earlier: the assumption under which update is stated to
    move [updatedAt] forward holds of every record that the service
    itself has written. *)
Lemma session_stamped rs d l T :
  stored d = JArr l → stamped T l → steady T rs →
  ∃ l' T',
    stored (session rs d).2 = JArr l' ∧ stamped T' l'
    ∧ T ≤ T' ∧ ∀ rs', steady T' rs' → steady T (rs ++ rs').
Proof.
  revert d l T. induction rs as [|[e r] rs IH]; intros d l T Hd Hst Hrs.
  - exists l, T. cbn. by eauto.
  - cbn [steady] in Hrs. destruct Hrs as (Hw & H0 & H1 & H2 & Hrs).
    destruct (handle_stamped r e d l T Hd Hst Hw H0 H1 H2) as (l1 & Hd1 & Hst1).
    cbn [session]. destruct (handle r e d) as [a d1]. cbn [snd] in Hd1.
    destruct (IH d1 l1 _ Hd1 Hst1 Hrs) as (l' & T' & Hd' & Hst' & HT & Hext).
    destruct (session rs d1) as [as' d''].
    exists l', T'. cbn [snd] in *.
    split; [done|]. split; [done|]. split; [lia|].
    intros rs' Hrs'. cbn [app steady]. repeat split; try done.
    by apply Hext.
Qed.

(** * Further properties of the handlers *)

(** ** Answers *)

Ltac null_or_not body :=
  let H := fresh "Hbody" in
  assert (body = JNull ∨ body ≠ JNull) as [->|H] by (destruct body; auto).

Ltac answered :=
  cbn; repeat split;
  try (intros [?|?]); try (intros [? ?]); try discriminate; eauto.

(** X1. Each route answers with one of three statuses at most: listing
    with 200 or 500, create with 201, 400 or 500, update and delete with
    200, 404 or 500; [success] is true exactly in the answers 200 and 201,
    and an [error] text is sent exactly in the answers 500. *)
Theorem status_by_route r e d :
  match r with
  | GET_users =>
      status (handle r e d).1 = 200 ∨ status (handle r e d).1 = 500
  | POST_users _ =>
      status (handle r e d).1 = 201 ∨ status (handle r e d).1 = 400
      ∨ status (handle r e d).1 = 500
  | _ =>
      status (handle r e d).1 = 200 ∨ status (handle r e d).1 = 404
      ∨ status (handle r e d).1 = 500
  end
  ∧ (success (handle r e d).1 = true ↔
       status (handle r e d).1 = 200 ∨ status (handle r e d).1 = 201)
  ∧ (is_Some (error (handle r e d).1) ↔ status (handle r e d).1 = 500).
Proof.
  destruct r as [|body|uid body|uid].
  - rewrite list_users_run. destruct (Array_length (stored d)); answered.
  - null_or_not body; [rewrite create_user_null; answered|].
    rewrite create_user_run by done.
    destruct (negb _ || negb _); [answered|].
    destruct (Array_find _ _) as [u|x]; [|answered].
    destruct (truthy u); [answered|].
    cbv zeta. destruct (write_fault e) as [[x d']|]; answered.
  - rewrite update_user_run.
    destruct (Array_findIndex _ _) as [k|x]; [|answered].
    destruct (k =? -1); [answered|].
    cbv zeta. destruct (write_fault e) as [[x d']|]; answered.
  - rewrite delete_user_run.
    destruct (Array_findIndex _ _) as [k|x]; [|answered].
    destruct (k =? -1); [answered|].
    destruct (write_fault e) as [[x d']|]; answered.
Qed.

(** X2. A request that is answered 400 or 404 has written nothing: the
    file is left exactly as it was, whatever a write would have done. *)
Theorem rejection_leaves_file r e d :
  status (handle r e d).1 = 400 ∨ status (handle r e d).1 = 404 →
  (handle r e d).2 = d.
Proof.
  destruct r as [|body|uid body|uid].
  - rewrite list_users_run. by destruct (Array_length (stored d)).
  - null_or_not body; [done|].
    rewrite create_user_run by done.
    destruct (negb _ || negb _); [done|].
    destruct (Array_find _ _) as [u|x]; [|done].
    destruct (truthy u); [done|]. cbv zeta.
    destruct (write_fault e) as [[x d']|]; cbn; by intros [?|?].
  - rewrite update_user_run.
    destruct (Array_findIndex _ _) as [k|x]; [|done].
    destruct (k =? -1); [done|]. cbv zeta.
    destruct (write_fault e) as [[x d']|]; cbn; by intros [?|?].
  - rewrite delete_user_run.
    destruct (Array_findIndex _ _) as [k|x]; [|done].
    destruct (k =? -1); [done|].
    destruct (write_fault e) as [[x d']|]; cbn; by intros [?|?].
Qed.

Lemma rejection_leaves_file_witness :
  (handle (POST_users bob) env_later two_users).2 = two_users.
Proof.
  apply (rejection_leaves_file (POST_users bob) env_later two_users).
  left. vm_compute. reflexivity.
Defined.

(** X3. Listing (GET /users) never writes.  It answers 500 exactly when
    the file holds the JSON value [null]; otherwise it answers 200 with
    whatever the file holds as [data], and when that is an array [count]
    is the number of its elements. *)
Theorem listing_reads_only e d :
  (handle GET_users e d).2 = d
  ∧ (stored d = JNull ↔ status (handle GET_users e d).1 = 500)
  ∧ (stored d ≠ JNull →
       status (handle GET_users e d).1 = 200
       ∧ data (handle GET_users e d).1 = Some (stored d))
  ∧ (∀ l, stored d = JArr l →
       count (handle GET_users e d).1 = Some (JNum (Z.of_nat (length l)))).
Proof.
  rewrite list_users_run.
  destruct (stored d) as [| | | |l0|o] eqn:Hd; cbn; repeat split; try done.
  by intros l [= ->].
Qed.

(** ** Faults of the write *)

(** X4. A fault of [fs.writeFile] matters only to a request that would
    have written: a create, update or delete that would have been
    answered 201 or 200 is answered 500 with the error of the write, and
    the file is what the failed write leaves; every other request is
    answered as if the write could not fail, and leaves the file alone. *)
Theorem write_fault_hits_writers_only r e d x d' :
  write_fault e = Some (x, d') →
  (r ≠ GET_users
   ∧ (status (handle r (calm e) d).1 = 200
      ∨ status (handle r (calm e) d).1 = 201) →
   status (handle r e d).1 = 500 ∧ error (handle r e d).1 = Some x
   ∧ (handle r e d).2 = d')
  ∧ (r = GET_users
     ∨ (status (handle r (calm e) d).1 ≠ 200
        ∧ status (handle r (calm e) d).1 ≠ 201) →
     handle r e d = handle r (calm e) d ∧ (handle r e d).2 = d).
Proof.
  intros Hw. destruct r as [|body|uid body|uid].
  - rewrite !list_users_run. split; [by intros [? _]|].
    intros _. by destruct (Array_length (stored d)).
  - null_or_not body.
    { rewrite !create_user_null. cbn. split; [by intros [_ [?|?]]|done]. }
    rewrite !create_user_run by done.
    destruct (negb _ || negb _); [cbn; split; [by intros [_ [?|?]]|done]|].
    destruct (Array_find _ _) as [u|y]; [|cbn; split; [by intros [_ [?|?]]|done]].
    destruct (truthy u); [cbn; split; [by intros [_ [?|?]]|done]|].
    cbv zeta. rewrite Hw. cbn. split; [done|].
    by intros [?|[_ ?]].
  - rewrite !update_user_run.
    destruct (Array_findIndex _ _) as [k|y]; [|cbn; split; [by intros [_ [?|?]]|done]].
    destruct (k =? -1); [cbn; split; [by intros [_ [?|?]]|done]|].
    cbv zeta. rewrite Hw. cbn. split; [done|].
    by intros [?|[? _]].
  - rewrite !delete_user_run.
    destruct (Array_findIndex _ _) as [k|y]; [|cbn; split; [by intros [_ [?|?]]|done]].
    destruct (k =? -1); [cbn; split; [by intros [_ [?|?]]|done]|].
    rewrite Hw. cbn. split; [done|].
    by intros [?|[? _]].
Qed.

Lemma write_fault_hits_writers_only_witness :
  status (handle (DELETE_users "17000000000004fzyo")
    (Env (clock env_later) "0.8k2jal9x"
       (Some (SystemError "ENOSPC", File Garbage))) two_users).1 = 500
  ∧ error (handle (DELETE_users "17000000000004fzyo")
      (Env (clock env_later) "0.8k2jal9x"
         (Some (SystemError "ENOSPC", File Garbage))) two_users).1
    = Some (SystemError "ENOSPC")
  ∧ (handle (DELETE_users "17000000000004fzyo")
      (Env (clock env_later) "0.8k2jal9x"
         (Some (SystemError "ENOSPC", File Garbage))) two_users).2
    = File Garbage.
Proof.
  apply (write_fault_hits_writers_only (DELETE_users "17000000000004fzyo")
    (Env (clock env_later) "0.8k2jal9x"
       (Some (SystemError "ENOSPC", File Garbage)))
    two_users (SystemError "ENOSPC") (File Garbage) ltac:(reflexivity)).
  split; [discriminate|left; reflexivity].
Defined.

(** ** When create succeeds, when update and delete find nothing *)

(** In an array of records, the search for an email either passes every
    record or stops at one that has the email. *)
Lemma find_in_records email l :
  records l →
  (find_in (prop_is "email" email) l = Returns None
   ∧ ∀ o, JObj o ∈ l → strict_eq (o !! "email") email = false)
  ∨ (∃ o, JObj o ∈ l ∧ strict_eq (o !! "email") email = true
          ∧ find_in (prop_is "email" email) l = Returns (Some (JObj o))).
Proof.
  induction 1 as [|u l Hu _ IH]; [left; split; [done|by intros o ?%elem_of_nil]|].
  destruct u as [| | | | |o1]; try discriminate.
  cbn [find_in prop_is get].
  destruct (strict_eq (o1 !! "email") email) eqn:E.
  - right. exists o1. split; [by left|done].
  - destruct IH as [[-> Hall]|(o & Hin & Heq & ->)].
    + left. split; [done|].
      intros o [[= ->]|Ho]%elem_of_cons; [done|by apply Hall].
    + right. exists o. split; [by right|done].
Qed.

(** An array of records either has no record with the identifier, or
    splits at the first one that has it. *)
Lemma first_with_id uid l :
  records l →
  without_id uid l
  ∨ ∃ pre old post,
      l = pre ++ JObj old :: post ∧ records pre ∧ without_id uid pre
      ∧ old !! "_id" = Some (JStr uid).
Proof.
  induction 1 as [|u l Hu Hl IH]; [left; by intros o ?%elem_of_nil|].
  destruct u as [| | | | |o1]; try discriminate.
  destruct (strict_eq (o1 !! "_id") (Some (JStr uid))) eqn:E.
  - right. exists [], o1, l. apply strict_eq_str in E.
    repeat split; [constructor|by intros o ?%elem_of_nil|done].
  - assert (o1 !! "_id" ≠ Some (JStr uid)) as Hne.
    { intros Heq. apply strict_eq_str in Heq. congruence. }
    destruct IH as [Hno|(pre & old & post & -> & Hrec & Hno & Hold)].
    + left. intros o [[= ->]|Ho]%elem_of_cons; [done|by apply Hno].
    + right. exists (JObj o1 :: pre), old, post.
      repeat split; [by constructor| |done].
      intros o [[= ->]|Ho]%elem_of_cons; [done|by apply Hno].
Qed.

(** X5. On an array of records and with a write that succeeds, create
    answers 201 exactly when the body has a truthy name and a truthy
    email and no record has an email that [===] finds equal to it. *)
Theorem create_succeeds_iff e d body l :
  stored d = JArr l → records l → write_fault e = None →
  (status (handle (POST_users body) e d).1 = 201
   ↔ valid body
     ∧ ∀ o, JObj o ∈ l → strict_eq (o !! "email") (field body "email") = false).
Proof.
  intros Hd Hrec Hw. unfold valid.
  null_or_not body.
  { rewrite create_user_null. cbn. split; [done|by intros [[? _] _]]. }
  rewrite create_user_run by done. rewrite Hd. cbn [Array_find].
  destruct (truthy (field body "name")), (truthy (field body "email"));
    cbn [negb orb]; try (cbn; split; [done|by intros [[? ?] _]]).
  destruct (find_in_records (field body "email") l Hrec)
    as [[-> Hall]|(o & Hin & Heq & ->)]; cbn [truthy truthy_json].
  - rewrite Hw. cbn. done.
  - cbn. split; [done|]. intros [_ Hall]. rewrite (Hall o Hin) in Heq. done.
Qed.

Lemma create_succeeds_iff_witness :
  status (handle (POST_users cara) env_later two_users).1 = 201.
Proof.
  apply (create_succeeds_iff env_later two_users cara
    [JObj ann_record; JObj bob_record]
    ltac:(reflexivity) ltac:(repeat constructor) ltac:(reflexivity)).
  split; [split; reflexivity|].
  intros o Ho.
  repeat (apply elem_of_cons in Ho as [[= ->]|Ho]; [vm_compute; reflexivity|]).
  by apply elem_of_nil in Ho.
Defined.

(** X6. On an array of records, update and delete answer 404 exactly
    when no record has the identifier of the route. *)
Theorem not_found_iff e d uid body l :
  stored d = JArr l → records l →
  (status (handle (PUT_users uid body) e d).1 = 404 ↔ without_id uid l)
  ∧ (status (handle (DELETE_users uid) e d).1 = 404 ↔ without_id uid l).
Proof.
  intros Hd Hrec.
  rewrite update_user_run, delete_user_run, Hd. cbn [Array_findIndex].
  destruct (first_with_id uid l Hrec)
    as [Hno|(pre & old & post & -> & Hpre & Hno & Hold)].
  - rewrite findIndex_absent by done. cbn. done.
  - rewrite findIndex_first by done.
    assert ((0 + Z.of_nat (length pre) =? -1) = false) as ->
      by (apply Z.eqb_neq; lia).
    assert (¬ without_id uid (pre ++ JObj old :: post)) as Hnot.
    { intros Hall. destruct (Hall old); [|done].
      apply elem_of_app. right. by left. }
    cbv zeta. destruct (write_fault e) as [[x d']|]; cbn; done.
Qed.

Lemma not_found_iff_witness :
  status (handle (PUT_users "42" ann) env_later two_users).1 = 404
  ∧ status (handle (DELETE_users "42") env_later two_users).1 = 404.
Proof.
  destruct (not_found_iff env_later two_users "42" ann
    [JObj ann_record; JObj bob_record]
    ltac:(reflexivity) ltac:(repeat constructor)) as [Hput Hdel].
  split; [apply Hput|apply Hdel]; not_among.
Defined.

(** ** What create stores *)

(** X7. The record that a successful create stores has exactly the
    seven members [_id], [name], [email], [age], [country], [createdAt]
    and [updatedAt]: other members of the body are dropped, and an [_id],
    [createdAt] or [updatedAt] sent by the client is not used. *)
Theorem create_keeps_seven_members e d body l :
  valid body → stored d = JArr l → records l →
  email_unused (field body "email") l → write_fault e = None →
  ∃ user : gmap string json,
    handle (POST_users body) e d =
      (done_with 201 "User created successfully" (Some (JObj user)),
       File (Encodes (JArr (l ++ [JObj user]))))
    ∧ dom user = user_members
    ∧ user !! "_id" = Some (JStr (generated e))
    ∧ user !! "createdAt" = Some (JStr (toISOString (clock e 1%nat)))
    ∧ user !! "updatedAt" = Some (JStr (toISOString (clock e 2%nat))).
Proof.
  intros Hv Hd Hrec Hun Hw.
  pose proof (create_user_succeeds e d body l Hv Hd Hrec Hun Hw) as Hrun.
  cbv zeta in Hrun. destruct Hv as [Hn Hm].
  destruct (field body "name") as [n|] eqn:En; [|discriminate].
  destruct (field body "email") as [m|] eqn:Em; [|discriminate].
  eexists. split; [exact Hrun|].
  cbn [with_prop]. split.
  - rewrite !dom_insert_L, dom_empty_L. unfold user_members. set_solver.
  - repeat split; repeat (rewrite lookup_insert_ne by done);
      by rewrite lookup_insert_eq.
Qed.

Lemma create_keeps_seven_members_witness :
  ∃ user : gmap string json,
    (handle (POST_users
       (JObj {[ "name" := JStr "Eve"; "email" := JStr "eve@example.com";
                "_id" := JStr "1"; "role" := JStr "admin" ]}))
       env_later two_users).1
    = done_with 201 "User created successfully" (Some (JObj user))
    ∧ user !! "role" = None
    ∧ user !! "_id" = Some (JStr "17000000600008k2ja").
Proof.
  destruct (create_keeps_seven_members env_later two_users
    (JObj {[ "name" := JStr "Eve"; "email" := JStr "eve@example.com";
             "_id" := JStr "1"; "role" := JStr "admin" ]})
    [JObj ann_record; JObj bob_record]
    ltac:(split; reflexivity) ltac:(reflexivity) ltac:(repeat constructor)
    ltac:(not_among) ltac:(reflexivity))
    as (user & Hrun & Hdom & Hid & _).
  exists user. split; [by rewrite Hrun|]. split; [|exact Hid].
  apply not_elem_of_dom. rewrite Hdom. vm_compute. done.
Defined.

(** ** Requests one after the other *)

(** What delete does to a collection whose first record with identifier
    [uid] is [old], when the write succeeds. *)
Lemma delete_user_found e d uid pre old post :
  stored d = JArr (pre ++ JObj old :: post) →
  records pre → without_id uid pre → old !! "_id" = Some (JStr uid) →
  write_fault e = None →
  handle (DELETE_users uid) e d =
    (done_with 200 "User deleted successfully" (Some (JObj old)),
     File (Encodes (JArr (pre ++ post)))).
Proof.
  intros Hd Hrec Hno Hold Hw.
  rewrite delete_user_run, Hd. cbn [Array_findIndex].
  rewrite findIndex_first by done.
  assert ((0 + Z.of_nat (length pre) =? -1) = false) as ->
    by (apply Z.eqb_neq; lia).
  by rewrite Hw, elem_middle, splice1_middle.
Qed.

(** X8. Creating a user and then deleting the identifier that the
    create answered with gives the collection back as it was, and the
    delete answers with the record that the create answered with,
    provided no record already had that identifier. *)
Theorem create_then_delete_restores e e' d body l :
  valid body → stored d = JArr l → records l →
  email_unused (field body "email") l → without_id (generated e) l →
  write_fault e = None → write_fault e' = None →
  member (data (handle (POST_users body) e d).1) "_id"
    = Some (JStr (generated e))
  ∧ status (handle (DELETE_users (generated e)) e'
              (handle (POST_users body) e d).2).1 = 200
  ∧ data (handle (DELETE_users (generated e)) e'
            (handle (POST_users body) e d).2).1
    = data (handle (POST_users body) e d).1
  ∧ stored (handle (DELETE_users (generated e)) e'
              (handle (POST_users body) e d).2).2 = JArr l.
Proof.
  intros Hv Hd Hrec Hun Hfresh Hw Hw'.
  destruct (created_members e (field body "name") (field body "email")
    (field body "age") (field body "country")) as (user & Hu & Hid & _);
    [apply Hv..|].
  rewrite (create_user_succeeds e d body l Hv Hd Hrec Hun Hw). cbv zeta.
  rewrite Hu. cbn [fst snd].
  rewrite (delete_user_found e' _ (generated e) l user []); try done.
  cbn. by rewrite app_nil_r.
Qed.

Lemma create_then_delete_restores_witness :
  stored (handle (DELETE_users (generated env_later)) env_later
            (handle (POST_users cara) env_later two_users).2).2
  = JArr [JObj ann_record; JObj bob_record].
Proof.
  apply (create_then_delete_restores env_later env_later two_users cara
    [JObj ann_record; JObj bob_record]
    ltac:(split; reflexivity) ltac:(reflexivity) ltac:(repeat constructor)
    ltac:(not_among) ltac:(not_among) ltac:(reflexivity) ltac:(reflexivity)).
Defined.

(** X9. Sending the same update twice gives what the second one alone
    would have given, in the answer and in the file: the record keeps
    the members of the body, and only [updatedAt] moves.  This is for a
    body that does not change the identifier of the record. *)
Theorem update_twice_is_update_once e1 e2 d uid body pre old post :
  stored d = JArr (pre ++ JObj old :: post) →
  records pre → without_id uid pre → old !! "_id" = Some (JStr uid) →
  write_fault e1 = None → write_fault e2 = None →
  (∀ v, own_props body !! "_id" = Some v → v = JStr uid) →
  handle (PUT_users uid body) e2 (handle (PUT_users uid body) e1 d).2
  = handle (PUT_users uid body) e2 d.
Proof.
  intros Hd Hrec Hno Hold Hw1 Hw2 Hid.
  rewrite (update_user_found e1 d uid pre old post Hd Hrec Hno Hold Hw1 body).
  cbn [snd].
  rewrite (update_user_found e2 d uid pre old post Hd Hrec Hno Hold Hw2 body).
  rewrite (update_user_found e2 _ uid pre
    (spread_update (Some (JObj old)) body (JStr (toISOString (clock e1 0%nat))))
    post); try done.
  - assert (spread_update
        (Some (JObj (spread_update (Some (JObj old)) body
                       (JStr (toISOString (clock e1 0%nat))))))
        body (JStr (toISOString (clock e2 0%nat)))
      = spread_update (Some (JObj old)) body
          (JStr (toISOString (clock e2 0%nat)))) as ->; [|done].
    unfold spread_update. cbn [from_option own_props].
    apply map_eq. intros k.
    destruct (decide (k = "updatedAt")) as [->|Hk].
    { by rewrite !lookup_insert_eq. }
    rewrite !lookup_insert_ne by done. rewrite !lookup_union.
    rewrite lookup_insert_ne by done. rewrite lookup_union.
    by destruct (own_props body !! k), (old !! k).
  - unfold spread_update. cbn [from_option own_props].
    rewrite lookup_insert_ne by done. rewrite lookup_union, Hold.
    destruct (own_props body !! "_id") as [v|] eqn:E; [|done].
    by rewrite (Hid v).
Qed.

Lemma update_twice_is_update_once_witness :
  handle (PUT_users "1700000000001zzzzz" (JObj {[ "name" := JStr "Rob" ]}))
    env_later
    (handle (PUT_users "1700000000001zzzzz" (JObj {[ "name" := JStr "Rob" ]}))
       env_bob two_users).2
  = handle (PUT_users "1700000000001zzzzz" (JObj {[ "name" := JStr "Rob" ]}))
      env_later two_users.
Proof.
  apply (update_twice_is_update_once env_bob env_later two_users
    "1700000000001zzzzz" (JObj {[ "name" := JStr "Rob" ]})
    [JObj ann_record] bob_record []
    ltac:(reflexivity) ltac:(repeat constructor) ltac:(not_among)
    ltac:(reflexivity) ltac:(reflexivity) ltac:(reflexivity)).
  intros v Hv. vm_compute in Hv. discriminate.
Defined.

(** X10. An update whose body has no members of its own (the empty
    object that stands for a missing body, an empty array, a number, a
    boolean, [null]) still succeeds: the record keeps every member and
    only its [updatedAt] is set to the time of the request. *)
Theorem update_without_members_touches e d uid body pre old post :
  stored d = JArr (pre ++ JObj old :: post) →
  records pre → without_id uid pre → old !! "_id" = Some (JStr uid) →
  write_fault e = None → own_props body = ∅ →
  handle (PUT_users uid body) e d =
    (done_with 200 "User updated successfully"
       (Some (JObj (<["updatedAt" := JStr (toISOString (clock e 0%nat))]> old))),
     File (Encodes (JArr (pre ++
       JObj (<["updatedAt" := JStr (toISOString (clock e 0%nat))]> old)
       :: post)))).
Proof.
  intros Hd Hrec Hno Hold Hw Hbody.
  rewrite (update_user_found e d uid pre old post Hd Hrec Hno Hold Hw body).
  unfold spread_update. cbn [from_option own_props].
  by rewrite Hbody, (left_id_L ∅ (∪)).
Qed.

Lemma update_without_members_touches_witness :
  handle (PUT_users "17000000000004fzyo" JNull) env_later two_users =
    (done_with 200 "User updated successfully"
       (Some (JObj (<["updatedAt" := JStr "2023-11-14T22:14:20.000Z"]> ann_record))),
     File (Encodes (JArr
       [JObj (<["updatedAt" := JStr "2023-11-14T22:14:20.000Z"]> ann_record);
        JObj bob_record]))).
Proof.
  apply (update_without_members_touches env_later two_users
    "17000000000004fzyo" JNull [] ann_record [JObj bob_record]
    ltac:(reflexivity) ltac:(constructor) ltac:(not_among)
    ltac:(reflexivity) ltac:(reflexivity) ltac:(reflexivity)).
Defined.

(** X11. Delete is answered 200 once: when the record deleted was the
    only one with its identifier, deleting or updating that identifier
    again is answered 404 and leaves the file as the first delete left
    it. *)
Theorem delete_twice_not_found e e' d uid body pre old post :
  stored d = JArr (pre ++ JObj old :: post) →
  records (pre ++ post) → without_id uid (pre ++ post) →
  old !! "_id" = Some (JStr uid) → write_fault e = None →
  handle (DELETE_users uid) e' (handle (DELETE_users uid) e d).2
    = (refused 404 "User not found", (handle (DELETE_users uid) e d).2)
  ∧ handle (PUT_users uid body) e' (handle (DELETE_users uid) e d).2
    = (refused 404 "User not found", (handle (DELETE_users uid) e d).2).
Proof.
  intros Hd Hrec Hno Hold Hw.
  assert (records pre ∧ without_id uid pre) as [Hpre Hnopre].
  { apply records_app in Hrec as [? _]. split; [done|].
    intros o Ho. apply Hno. apply elem_of_app. by left. }
  rewrite (delete_user_found e d uid pre old post Hd Hpre Hnopre Hold Hw).
  cbn [snd]. rewrite update_user_run, delete_user_run. cbn [stored Array_findIndex].
  by rewrite findIndex_absent.
Qed.

Lemma delete_twice_not_found_witness :
  status (handle (DELETE_users "17000000000004fzyo") env_later
            (handle (DELETE_users "17000000000004fzyo") env_later two_users).2).1
  = 404.
Proof.
  destruct (delete_twice_not_found env_later env_later two_users
    "17000000000004fzyo" JNull [] ann_record [JObj bob_record]
    ltac:(reflexivity) ltac:(repeat constructor) ltac:(not_among)
    ltac:(reflexivity) ltac:(reflexivity)) as [Hdel _].
  by rewrite Hdel.
Defined.

(** X12. An update whose body carries another [_id] moves the record to
    that identifier: asked again under the old identifier, which no
    other record has, update and delete answer 404, and a delete of the
    new identifier, which no earlier record has, removes the record. *)
Theorem update_of_id_moves_record e e' d uid new body pre old post :
  stored d = JArr (pre ++ JObj old :: post) →
  records (pre ++ post) → without_id uid (pre ++ post) →
  old !! "_id" = Some (JStr uid) → write_fault e = None →
  write_fault e' = None →
  own_props body !! "_id" = Some (JStr new) → new ≠ uid →
  without_id new pre →
  handle (PUT_users uid body) e' (handle (PUT_users uid body) e d).2
    = (refused 404 "User not found", (handle (PUT_users uid body) e d).2)
  ∧ status (handle (DELETE_users new) e'
              (handle (PUT_users uid body) e d).2).1 = 200
  ∧ data (handle (DELETE_users new) e' (handle (PUT_users uid body) e d).2).1
    = data (handle (PUT_users uid body) e d).1
  ∧ stored (handle (DELETE_users new) e'
              (handle (PUT_users uid body) e d).2).2 = JArr (pre ++ post).
Proof.
  intros Hd Hrec Hno Hold Hw Hw' Hnew Hne Hnewpre.
  apply records_app in Hrec as [Hpre Hpost].
  assert (without_id uid pre) as Hnopre.
  { intros o Ho. apply Hno. apply elem_of_app. by left. }
  rewrite (update_user_found e d uid pre old post Hd Hpre Hnopre Hold Hw body).
  cbn [fst snd].
  assert (spread_update (Some (JObj old)) body
            (JStr (toISOString (clock e 0%nat))) !! "_id" = Some (JStr new))
    as Hmoved.
  { unfold spread_update. cbn [from_option own_props].
    rewrite lookup_insert_ne by done. rewrite lookup_union, Hnew.
    by destruct (old !! "_id"). }
  split.
  - rewrite update_user_run. cbn [stored Array_findIndex].
    rewrite findIndex_absent; [done| |].
    + apply records_app. split; [done|]. by constructor.
    + intros o [Ho|[[= ->]|Ho]%elem_of_cons]%elem_of_app.
      * by apply Hnopre.
      * rewrite Hmoved. by intros [= ->].
      * apply Hno. apply elem_of_app. by right.
  - rewrite (delete_user_found e' _ new pre
      (spread_update (Some (JObj old)) body (JStr (toISOString (clock e 0%nat))))
      post); done.
Qed.

Lemma update_of_id_moves_record_witness :
  status (handle (PUT_users "1700000000001zzzzz" (JObj {[ "_id" := JStr "7" ]}))
    env_later
    (handle (PUT_users "1700000000001zzzzz" (JObj {[ "_id" := JStr "7" ]}))
       env_later two_users).2).1 = 404.
Proof.
  destruct (update_of_id_moves_record env_later env_later two_users
    "1700000000001zzzzz" "7" (JObj {[ "_id" := JStr "7" ]})
    [JObj ann_record] bob_record []
    ltac:(reflexivity) ltac:(repeat constructor) ltac:(not_among)
    ltac:(reflexivity) ltac:(reflexivity) ltac:(reflexivity)
    ltac:(reflexivity) ltac:(discriminate) ltac:(not_among)) as [Hput _].
  by rewrite Hput.
Defined.

(** ** Sessions *)

Lemma handle_sound r e d :
  well_formed d → write_fault e = None → r ≠ POST_users JNull →
  status (handle r e d).1 ≠ 500.
Proof.
  intros (l & Hd & Hrec) Hw Hr. destruct r as [|body|uid body|uid].
  - rewrite list_users_run, Hd. done.
  - null_or_not body; [done|].
    rewrite create_user_run by done. rewrite Hd. cbn [Array_find].
    destruct (negb _ || negb _); [done|].
    destruct (find_in_records (field body "email") l Hrec)
      as [[-> _]|(o & _ & _ & ->)]; cbn [truthy truthy_json]; [|done].
    by rewrite Hw.
  - rewrite update_user_run, Hd. cbn [Array_findIndex].
    destruct (first_with_id uid l Hrec)
      as [Hno|(pre & old & post & -> & Hpre & Hno & Hold)].
    + by rewrite findIndex_absent.
    + rewrite findIndex_first by done.
      destruct (_ =? -1); [done|]. cbv zeta. by rewrite Hw.
  - rewrite delete_user_run, Hd. cbn [Array_findIndex].
    destruct (first_with_id uid l Hrec)
      as [Hno|(pre & old & post & -> & Hpre & Hno & Hold)].
    + by rewrite findIndex_absent.
    + rewrite findIndex_first by done.
      destruct (_ =? -1); [done|]. by rewrite Hw.
Qed.

(** X13. Started on a file that reads as an array of records (a missing
    or unreadable file reads as the empty one), a session whose writes
    succeed and whose bodies are not [null] is never answered 500, and
    the file reads as an array of records at its end. *)
Theorem session_never_fails rs d :
  well_formed d → Forall sound rs →
  Forall (λ a, status a ≠ 500) (session rs d).1
  ∧ well_formed (session rs d).2.
Proof.
  revert d. induction rs as [|[e r] rs IH]; intros d Hd Hrs.
  - split; [constructor|done].
  - apply Forall_cons in Hrs as [[Hw Hr] Hrs]. cbn [fst snd] in Hw, Hr.
    pose proof (handle_sound r e d Hd Hw Hr) as H500.
    pose proof (handle_well_formed r e d Hd Hw) as Hd1.
    cbn [session]. destruct (handle r e d) as [a d1]. cbn [fst snd] in *.
    destruct (IH d1 Hd1 Hrs) as [Hall Hfinal].
    destruct (session rs d1) as [as' d2]. cbn [fst snd] in *.
    split; [by constructor|done].
Qed.

Lemma session_never_fails_witness :
  Forall (λ a, status a ≠ 500) (session renumbering NoFile).1.
Proof.
  apply (session_never_fails renumbering NoFile).
  - exists []. split; [reflexivity|constructor].
  - repeat constructor; discriminate.
Defined.

(** X14. In a session that starts on an empty collection when the clock
    shows [T], in which the clock never goes back and every write
    succeeds, every record in the file at the end has for [updatedAt] a
    reading of the clock that is not later than the last reading of the
    session. *)
Theorem steady_session_stamps rs d T :
  stored d = JArr [] → steady T rs →
  ∃ l, stored (session rs d).2 = JArr l ∧ stamped (closing T rs) l.
Proof.
  intros Hd. assert (stamped T []) as Hst by (by intros o ?%elem_of_nil).
  revert Hd Hst. generalize (@nil json). revert d T.
  induction rs as [|[e r] rs IH]; intros d T l Hd Hst Hrs.
  - exists l. done.
  - cbn [steady] in Hrs. destruct Hrs as (Hw & H0 & H1 & H2 & Hrs).
    destruct (handle_stamped r e d l T Hd Hst Hw H0 H1 H2) as (l1 & Hd1 & Hst1).
    cbn [session closing]. destruct (handle r e d) as [a d1]. cbn [snd] in Hd1.
    destruct (IH d1 _ l1 Hd1 Hst1 Hrs) as (l' & Hd' & Hst').
    destruct (session rs d1) as [as' d2]. cbn [snd] in *. eauto.
Qed.

Lemma steady_session_stamps_witness :
  ∃ l, stored (session [(env_ann, POST_users ann); (env_bob, POST_users bob);
                        (env_later, DELETE_users "17000000000004fzyo")]
                 NoFile).2 = JArr l
       ∧ stamped 1700000060002 l.
Proof.
  apply (steady_session_stamps
    [(env_ann, POST_users ann); (env_bob, POST_users bob);
     (env_later, DELETE_users "17000000000004fzyo")] NoFile 0
    ltac:(reflexivity)).
  vm_compute. repeat split; discriminate || reflexivity.
Defined.

(** ** Files that are not arrays of records *)

(** X15. A create on a file that is missing, cannot be read or does not
    parse succeeds like one on an empty collection and replaces the file
    by the array of the one new record: what the file held is lost. *)
Theorem create_replaces_unreadable_file e d body :
  valid body → write_fault e = None →
  d = NoFile ∨ (∃ x, d = NoAccess x) ∨ d = File Garbage →
  handle (POST_users body) e d =
    (done_with 201 "User created successfully"
       (Some (created e (field body "name") (field body "email")
                (field body "age") (field body "country"))),
     File (Encodes (JArr
       [created e (field body "name") (field body "email")
          (field body "age") (field body "country")]))).
Proof.
  intros Hv Hw Hd.
  apply (create_user_succeeds e d body []); try done.
  - by destruct Hd as [->|[[x ->]| ->]].
  - constructor.
  - by intros o ?%elem_of_nil.
Qed.

Lemma create_replaces_unreadable_file_witness :
  stored (handle (POST_users ann) env_ann (File Garbage)).2
  = JArr [JObj ann_record].
Proof.
  rewrite (create_replaces_unreadable_file env_ann (File Garbage) ann
    ltac:(split; reflexivity) ltac:(reflexivity)
    ltac:(right; right; reflexivity)).
  vm_compute. reflexivity.
Defined.

(** X16. When the file holds JSON that is not an array, update and
    delete, and create with a valid body, are answered 500 with a
    [TypeError], and nothing is written. *)
Theorem non_array_file_fails e d :
  (∀ l, stored d ≠ JArr l) →
  (∀ uid body,
     handle (PUT_users uid body) e d
     = (failed "Error updating user" TypeError, d))
  ∧ (∀ uid,
       handle (DELETE_users uid) e d
       = (failed "Error deleting user" TypeError, d))
  ∧ (∀ body, valid body →
       handle (POST_users body) e d
       = (failed "Error creating user" TypeError, d)).
Proof.
  intros Hd. repeat split.
  - intros uid body. rewrite update_user_run.
    destruct (stored d) as [| | | |l|]; try done. by destruct (Hd l).
  - intros uid. rewrite delete_user_run.
    destruct (stored d) as [| | | |l|]; try done. by destruct (Hd l).
  - intros body Hv. rewrite create_user_run by by apply valid_not_null.
    destruct Hv as [-> ->]. cbn [negb orb].
    destruct (stored d) as [| | | |l|]; try done. by destruct (Hd l).
Qed.

Lemma non_array_file_fails_witness :
  handle (DELETE_users "1") env_later (File (Encodes (JObj ann_record)))
  = (failed "Error deleting user" TypeError, File (Encodes (JObj ann_record))).
Proof.
  apply (non_array_file_fails env_later (File (Encodes (JObj ann_record)))).
  intros l. discriminate.
Defined.

(** X17. A [null] element in the array stops every search that reaches
    it: when no record before it has the identifier, update and delete
    are answered 500 with a [TypeError] and write nothing, whatever
    follows the [null]; so is a create with a valid body whose email no
    record before the [null] has. *)
Theorem null_element_stops_search e d pre post :
  stored d = JArr (pre ++ JNull :: post) → records pre →
  (∀ uid body, without_id uid pre →
     handle (PUT_users uid body) e d
     = (failed "Error updating user" TypeError, d))
  ∧ (∀ uid, without_id uid pre →
       handle (DELETE_users uid) e d
       = (failed "Error deleting user" TypeError, d))
  ∧ (∀ body, valid body →
       (∀ o, JObj o ∈ pre →
          strict_eq (o !! "email") (field body "email") = false) →
       handle (POST_users body) e d
       = (failed "Error creating user" TypeError, d)).
Proof.
  intros Hd Hrec.
  assert (∀ uid i, without_id uid pre →
    findIndex_from (has_id uid) (pre ++ JNull :: post) i = Throws TypeError)
    as Hsearch.
  { clear Hd. intros uid i. revert i.
    induction Hrec as [|u l Hu _ IH]; intros i Hno; [done|].
    destruct u as [| | | | |o]; try discriminate. cbn [app findIndex_from].
    rewrite has_id_false by (apply Hno; by left).
    apply IH. intros o' Ho'. apply Hno. by right. }
  repeat split.
  - intros uid body Hno. rewrite update_user_run, Hd. cbn [Array_findIndex].
    by rewrite Hsearch.
  - intros uid Hno. rewrite delete_user_run, Hd. cbn [Array_findIndex].
    by rewrite Hsearch.
  - intros body Hv Hun. rewrite create_user_run by by apply valid_not_null.
    destruct Hv as [-> ->]. cbn [negb orb]. rewrite Hd. cbn [Array_find].
    assert (find_in (prop_is "email" (field body "email"))
              (pre ++ JNull :: post) = Throws TypeError) as ->; [|done].
    clear Hsearch Hd. induction Hrec as [|u l Hu _ IH]; [done|].
    destruct u as [| | | | |o]; try discriminate.
    cbn [app find_in prop_is get]. rewrite (Hun o) by by left.
    apply IH. intros o' Ho'. apply Hun. by right.
Qed.

Lemma null_element_stops_search_witness :
  handle (DELETE_users "1700000000001zzzzz") env_later
    (File (Encodes (JArr [JObj ann_record; JNull; JObj bob_record])))
  = (failed "Error deleting user" TypeError,
     File (Encodes (JArr [JObj ann_record; JNull; JObj bob_record]))).
Proof.
  apply (null_element_stops_search env_later
    (File (Encodes (JArr [JObj ann_record; JNull; JObj bob_record])))
    [JObj ann_record] [JObj bob_record]
    ltac:(reflexivity) ltac:(repeat constructor)).
  not_among.
Defined.

(** ** What a request does to the collection as a whole *)

(** X18. Whatever array the file holds, and a write that succeeds: a
    create lengthens the collection by one when it is answered 201, a
    delete shortens it by one when it is answered 200, and in every
    other case (a listing, an update, any request that is refused or
    fails) the number of elements stays the same. *)
Theorem length_follows_status r e d l :
  stored d = JArr l → write_fault e = None →
  ∃ l', stored (handle r e d).2 = JArr l'
    ∧ match r with
      | POST_users _ =>
          (status (handle r e d).1 = 201 → length l' = S (length l))
          ∧ (status (handle r e d).1 ≠ 201 → length l' = length l)
      | DELETE_users _ =>
          (status (handle r e d).1 = 200 → S (length l') = length l)
          ∧ (status (handle r e d).1 ≠ 200 → length l' = length l)
      | _ => length l' = length l
      end.
Proof.
  intros Hd Hw.
  assert (∀ a : response,
    ∃ l', stored (a, d).2 = JArr l' ∧ length l' = length l) as Hsame
    by (intros a; exists l; done).
  destruct r as [|body|uid body|uid].
  - rewrite list_users_run. destruct (Array_length (stored d)); apply Hsame.
  - assert (∀ a : response, status a ≠ 201 →
      ∃ l', stored (a, d).2 = JArr l'
        ∧ (status (a, d).1 = 201 → length l' = S (length l))
        ∧ (status (a, d).1 ≠ 201 → length l' = length l)) as Hkept
      by (intros a Ha; exists l; done).
    null_or_not body; [by apply Hkept|].
    rewrite create_user_run by done.
    destruct (negb _ || negb _); [by apply Hkept|].
    destruct (Array_find _ _) as [u|x]; [|by apply Hkept].
    destruct (truthy u); [by apply Hkept|].
    cbv zeta. rewrite Hw, Hd. cbn. eexists. split; [done|].
    rewrite length_app. cbn. split; [lia|done].
  - rewrite update_user_run.
    destruct (Array_findIndex _ _) as [k|x] eqn:Hk; [|apply Hsame].
    destruct (k =? -1) eqn:Hne; [apply Hsame|]. apply Z.eqb_neq in Hne.
    rewrite Hd in Hk |- *. cbn [Array_findIndex] in Hk.
    destruct (findIndex_found _ _ _ _ Hk Hne ltac:(lia))
      as (pre & old & post & -> & _ & -> & _).
    cbv zeta. rewrite Hw, set_elem_middle. cbn. eexists. split; [done|].
    by rewrite !length_app.
  - assert (∀ a : response, status a ≠ 200 →
      ∃ l', stored (a, d).2 = JArr l'
        ∧ (status (a, d).1 = 200 → S (length l') = length l)
        ∧ (status (a, d).1 ≠ 200 → length l' = length l)) as Hkept
      by (intros a Ha; exists l; done).
    rewrite delete_user_run.
    destruct (Array_findIndex _ _) as [k|x] eqn:Hk; [|by apply Hkept].
    destruct (k =? -1) eqn:Hne; [by apply Hkept|]. apply Z.eqb_neq in Hne.
    rewrite Hd in Hk |- *. cbn [Array_findIndex] in Hk.
    destruct (findIndex_found _ _ _ _ Hk Hne ltac:(lia))
      as (pre & old & post & -> & _ & -> & _).
    rewrite Hw, splice1_middle. cbn. eexists. split; [done|].
    rewrite !length_app. cbn. split; [lia|done].
Qed.

Lemma length_follows_status_witness :
  ∃ l', stored (handle (DELETE_users "17000000000004fzyo") env_later
                  two_users).2 = JArr l'
        ∧ S (length l') = 2%nat.
Proof.
  destruct (length_follows_status (DELETE_users "17000000000004fzyo")
    env_later two_users [JObj ann_record; JObj bob_record]
    ltac:(reflexivity) ltac:(reflexivity)) as (l' & Hd & Hlen & _).
  exists l'. split; [exact Hd|]. apply Hlen. reflexivity.
Defined.

Lemma strict_eq_sym (a b : value) : strict_eq a b = strict_eq b a.
Proof.
  destruct a as [[]|], b as [[]|]; cbn; try done.
  - by destruct b, b0.
  - apply Z.eqb_sym.
  - apply String.eqb_sym.
Qed.

(** X19. Create and delete keep the emails of the records pairwise
    different (for [===]); update is the one request that need not. *)
Theorem emails_stay_distinct r e d l :
  stored d = JArr l → records l → emails_distinct l →
  write_fault e = None → (∀ uid body, r ≠ PUT_users uid body) →
  ∃ l', stored (handle r e d).2 = JArr l' ∧ emails_distinct l'.
Proof.
  intros Hd Hrec Hdis Hw Hr.
  assert (∀ a : response,
    ∃ l', stored (a, d).2 = JArr l' ∧ emails_distinct l') as Hsame
    by (intros a; exists l; done).
  destruct r as [|body|uid body|uid].
  - rewrite list_users_run. destruct (Array_length (stored d)); apply Hsame.
  - null_or_not body; [apply Hsame|].
    rewrite create_user_run by done.
    destruct (truthy (field body "name")) eqn:Hn; [|apply Hsame].
    destruct (truthy (field body "email")) eqn:Hm; [|apply Hsame].
    cbn [negb orb]. rewrite Hd. cbn [Array_find].
    destruct (find_in_records (field body "email") l Hrec)
      as [[-> Hall]|(o & _ & _ & ->)]; cbn [truthy truthy_json];
      [|apply Hsame].
    cbv zeta. rewrite Hw. cbn. eexists. split; [done|].
    destruct (created_members e (field body "name") (field body "email")
      (field body "age") (field body "country") Hn Hm)
      as (user & -> & _ & _ & Hemail & _).
    intros i j oi oj Hij Hi Hj.
    apply lookup_app_Some in Hi as [Hi|[Hi Hi']];
      apply lookup_app_Some in Hj as [Hj|[Hj Hj']].
    + by apply (Hdis i j).
    + apply list_lookup_singleton_Some in Hj' as [_ [= <-]].
      rewrite Hemail. apply Hall. by eapply list_elem_of_lookup_2.
    + apply list_lookup_singleton_Some in Hi' as [_ [= <-]].
      rewrite Hemail, strict_eq_sym. apply Hall.
      by eapply list_elem_of_lookup_2.
    + apply list_lookup_singleton_Some in Hi' as [Hi' _].
      apply list_lookup_singleton_Some in Hj' as [Hj' _]. lia.
  - by destruct (Hr uid body).
  - rewrite delete_user_run.
    destruct (Array_findIndex _ _) as [k|x] eqn:Hk; [|apply Hsame].
    destruct (k =? -1) eqn:Hne; [apply Hsame|]. apply Z.eqb_neq in Hne.
    rewrite Hd in Hk |- *. cbn [Array_findIndex] in Hk.
    destruct (findIndex_found _ _ _ _ Hk Hne ltac:(lia))
      as (pre & old & post & -> & _ & -> & _).
    rewrite Hw, splice1_middle. cbn. eexists. split; [done|].
    rewrite <-(delete_middle pre post (JObj old)).
    intros i j oi oj Hij Hi Hj.
    destruct (decide (i < length pre)%nat), (decide (j < length pre)%nat).
    + rewrite list_lookup_delete_lt in Hi, Hj by done. by apply (Hdis i j).
    + rewrite list_lookup_delete_lt in Hi by done.
      rewrite list_lookup_delete_ge in Hj by lia. apply (Hdis i (S j)); [lia|done..].
    + rewrite list_lookup_delete_ge in Hi by lia.
      rewrite list_lookup_delete_lt in Hj by done. apply (Hdis (S i) j); [lia|done..].
    + rewrite list_lookup_delete_ge in Hi, Hj by lia.
      apply (Hdis (S i) (S j)); [lia|done..].
Qed.

Lemma emails_stay_distinct_witness :
  ∃ l', stored (handle (POST_users cara) env_later two_users).2 = JArr l'
        ∧ emails_distinct l'.
Proof.
  apply (emails_stay_distinct (POST_users cara) env_later two_users
    [JObj ann_record; JObj bob_record]
    ltac:(reflexivity) ltac:(repeat constructor)).
  - intros i j oi oj Hij Hi Hj.
    destruct i as [|[|i]], j as [|[|j]]; try done;
      cbn in Hi, Hj; injection Hi as <-; injection Hj as <-;
      vm_compute; reflexivity.
  - reflexivity.
  - discriminate.
Defined.

(** ** The identifier *)

Lemma length_substring (n m : nat) (s : string) :
  String.length (String.substring n m s) = (m `min` (String.length s - n))%nat.
Proof.
  revert n m. induction s as [|c s IH]; intros [|n] [|m]; cbn;
    rewrite ?IH, ?Nat.sub_0_r; done.
Qed.

Lemma length_string_app (a b : string) :
  String.length (a +:+ b) = (String.length a + String.length b)%nat.
Proof.
  induction a as [|c a IH]; [done|].
  change (S (String.length (a +:+ b))
          = S (String.length a + String.length b)). by f_equal.
Qed.

(** X20. The identifier of a created record is the digits of the clock
    followed by the third to seventh characters of the random string:
    five characters when the string has seven or more, fewer when it is
    shorter, and none when it has two or less, as for the string "0". *)
Theorem generated_id_length e d body l :
  valid body → stored d = JArr l → records l →
  email_unused (field body "email") l → write_fault e = None →
  ∃ id : string,
    member (data (handle (POST_users body) e d).1) "_id" = Some (JStr id)
    ∧ String.length id
      = (String.length (pretty (clock e 0%nat))
         + 5 `min` (String.length (random36 e) - 2))%nat
    ∧ (String.length (random36 e) ≤ 2 → id = pretty (clock e 0%nat))%nat.
Proof.
  intros Hv Hd Hrec Hun Hw.
  destruct (created_members e (field body "name") (field body "email")
    (field body "age") (field body "country")) as (user & Hu & Hid & _);
    [apply Hv..|].
  rewrite (create_user_succeeds e d body l Hv Hd Hrec Hun Hw). cbv zeta.
  rewrite Hu. cbn [fst data done_with member field]. eexists.
  split; [exact Hid|].
  rewrite length_string_app, length_substring. split; [done|].
  intros Hshort.
  assert (String.substring 2 5 (random36 e) = "") as ->.
  { pose proof (length_substring 2 5 (random36 e)) as Hlen.
    destruct (String.substring 2 5 (random36 e)); [done|].
    cbn [String.length] in Hlen. lia. }
  clear. induction (pretty (clock e 0%nat)) as [|c s IH]; [done|].
  change (String c (s +:+ "") = String c s). by f_equal.
Qed.

Lemma generated_id_length_witness :
  member (data (handle (POST_users ann)
                  (Env (λ _, 1700000000000) "0" None) NoFile).1) "_id"
  = Some (JStr "1700000000000").
Proof.
  destruct (generated_id_length (Env (λ _, 1700000000000) "0" None) NoFile
    ann [] ltac:(split; reflexivity) ltac:(reflexivity) ltac:(constructor)
    ltac:(not_among) ltac:(reflexivity)) as (id & Hid & _ & Hshort).
  rewrite Hid. f_equal. f_equal. rewrite Hshort; [reflexivity|].
  cbn. lia.
Defined.
